(** * The homeschool curriculum generator (app.py), embedded and verified

    The development follows the class [HomeschoolCurriculumGenerator]:
    [get_grade_suffix], [generate_curriculum], [format_curriculum_display]
    and [format_curriculum_text].

    - A Python [str] is a list of Unicode code points.  Source literals are
      written [u "..."], the code points of the UTF-8 text between the quotes.
    - A decoded JSON document is a [pyval]; a [dict] is an association list in
      insertion order, as Python iterates it.
    - The two effects of the program, the HTTP request and the reading of the
      clock, are threaded through a [World]; exceptions are results.
    - [json.loads] runs under two limits of the interpreter, its recursion
      limit and the number of digits [int] converts; both are parameters. *)

From Stdlib Require Import String Ascii DecimalString.
From Stdlib Require Import ZArith NArith List Bool Lia.
Import ListNotations.

Set Implicit Arguments.

(** ** Python strings *)

Module Str.

Definition str := list N.

Fixpoint utf8_decode (bs : list N) : str :=
  match bs with
  | [] => []
  | b :: r =>
      if (b <? 128)%N then b :: utf8_decode r
      else if (b <? 224)%N then
        match r with
        | b1 :: r1 => ((b - 192) * 64 + (b1 - 128))%N :: utf8_decode r1
        | _ => []
        end
      else if (b <? 240)%N then
        match r with
        | b1 :: b2 :: r2 =>
            ((b - 224) * 4096 + (b1 - 128) * 64 + (b2 - 128))%N :: utf8_decode r2
        | _ => []
        end
      else
        match r with
        | b1 :: b2 :: b3 :: r3 =>
            ((b - 240) * 262144 + (b1 - 128) * 4096 + (b2 - 128) * 64 + (b3 - 128))%N
              :: utf8_decode r3
        | _ => []
        end
  end.

(** [u "text"]: the Python string written ["text"] in the source. *)
Definition u (s : string) : str :=
  utf8_decode (map N_of_ascii (list_ascii_of_string s)).

(** The double quote and the line feed, which the source writes inside its
    literals. *)
Definition dq : str := [34%N].
Definition nl : str := [10%N].

(** [str(z)] for a Python [int]: decimal digits, with a minus sign. *)
Definition str_int (z : Z) : str :=
  u (NilEmpty.string_of_int (Z.to_int z)).

(** [sep.join(l)] *)
Fixpoint join (sep : str) (l : list str) : str :=
  match l with
  | [] => []
  | [x] => x
  | x :: r => x ++ sep ++ join sep r
  end.

Fixpoint str_eqb (a b : str) : bool :=
  match a, b with
  | [], [] => true
  | x :: a', y :: b' => (x =? y)%N && str_eqb a' b'
  | _, _ => false
  end.

Fixpoint startswith (p s : str) : bool :=
  match p, s with
  | [], _ => true
  | x :: p', y :: s' => (x =? y)%N && startswith p' s'
  | _ :: _, [] => false
  end.

(** [s.replace(old, new)]: the occurrences of [old] are found from left to
    right and do not overlap.  [skip] counts the characters of an occurrence
    still to be dropped. *)
Fixpoint replace_from (old new : str) (skip : nat) (s : str) : str :=
  match s with
  | [] => []
  | c :: r =>
      match skip with
      | S k => replace_from old new k r
      | O =>
          if startswith old s
          then new ++ replace_from old new (length old - 1) r
          else c :: replace_from old new 0 r
      end
  end.

Definition replace (s old new : str) : str :=
  match old with
  | [] => new ++ flat_map (fun c => c :: new) s
  | _ :: _ => replace_from old new 0 s
  end.

(** The characters [str.strip()] removes: those Python calls whitespace. *)
Definition isspace (c : N) : bool :=
  ((9 <=? c) && (c <=? 13) || (28 <=? c) && (c <=? 32) || (c =? 133) || (c =? 160)
   || (c =? 5760) || (8192 <=? c) && (c <=? 8202) || (c =? 8232) || (c =? 8233)
   || (c =? 8239) || (c =? 8287) || (c =? 12288))%N.

Fixpoint lstrip (s : str) : str :=
  match s with
  | [] => []
  | c :: r => if isspace c then lstrip r else s
  end.

Definition rstrip (s : str) : str := rev (lstrip (rev s)).

Definition strip (s : str) : str := rstrip (lstrip s).

(** [needle in s] *)
Fixpoint contains (needle s : str) : bool :=
  startswith needle s ||
  match s with
  | [] => false
  | _ :: r => contains needle r
  end.

(** Nothing but whitespace. *)
Definition all_space (s : str) : bool := forallb isspace s.

End Str.
Import Str.

(** ** [get_grade_suffix] *)

(** [int(grade)] is the identity on an integer grade. *)
Definition get_grade_suffix (grade : Z) : str :=
  if (grade =? 1)%Z then u "st"
  else if (grade =? 2)%Z then u "nd"
  else if (grade =? 3)%Z then u "rd"
  else u "th".

(** ** Python values and exceptions *)

(** What [json.loads] and [response.json()] return.  The keys of a decoded
    object are strings; a [float] is kept as the number literal it was read
    from. *)
#[warnings="-register-all"] Inductive pyval : Type :=
| PNone
| PBool (b : bool)
| PInt (z : Z)
| PFloat (lexeme : str)
| PStr (s : str)
| PList (l : list pyval)
| PDict (d : list (str * pyval)).

(** [d[k] = v] on a dict: a key already present keeps its place. *)
Fixpoint dict_set (d : list (str * pyval)) (k : str) (v : pyval) : list (str * pyval) :=
  match d with
  | [] => [(k, v)]
  | (k', v') :: r => if str_eqb k' k then (k, v) :: r else (k', v') :: dict_set r k v
  end.

Fixpoint dict_get (d : list (str * pyval)) (k : str) : option pyval :=
  match d with
  | [] => None
  | (k', v) :: r => if str_eqb k' k then Some v else dict_get r k
  end.

(** The three [except] clauses of [generate_curriculum], in their order: an
    exception belongs to the first class that catches it. *)
Inductive exn_class := RequestException | JSONDecodeError | OtherException.

Record exn := mkExn { exn_kind : exn_class; exn_str : str }.

Inductive result (A : Type) : Type :=
| Ok (a : A)
| Raise (e : exn).
Arguments Ok {A} a.
Arguments Raise {A} e.

(** ** [json.loads] *)

Module Json.

(** The outcome of scanning at some point of the document: the value and the
    text left, or a message and the text left at the position it points to,
    or an exception that is not an error of the document. *)
Inductive scan (A : Type) : Type :=
| Scanned (a : A) (rest : str)
| ScanError (msg : str) (at_rest : str)
| OutOfFuel
| Raised (e : exn).
Arguments Scanned {A} a rest.
Arguments ScanError {A} msg at_rest.
Arguments OutOfFuel {A}.
Arguments Raised {A} e.

Definition is_ws (c : N) : bool :=
  ((c =? 32) || (c =? 9) || (c =? 10) || (c =? 13))%N.

Fixpoint skip_ws (s : str) : str :=
  match s with
  | [] => []
  | c :: r => if is_ws c then skip_ws r else s
  end.

Definition isdigit (c : N) : bool := ((48 <=? c) && (c <=? 57))%N.

Definition hexval (c : N) : option N :=
  if isdigit c then Some (c - 48)%N
  else if ((97 <=? c) && (c <=? 102))%N then Some (c - 87)%N
  else if ((65 <=? c) && (c <=? 70))%N then Some (c - 55)%N
  else None.

Definition hex4 (a b c d : N) : option N :=
  match hexval a, hexval b, hexval c, hexval d with
  | Some x, Some y, Some z, Some w => Some (((x * 16 + y) * 16 + z) * 16 + w)%N
  | _, _, _, _ => None
  end.

Definition is_high_surrogate (c : N) : bool := ((55296 <=? c) && (c <=? 56319))%N.
Definition is_low_surrogate (c : N) : bool := ((56320 <=? c) && (c <=? 57343))%N.
Definition join_surrogates (hi lo : N) : N :=
  (65536 + ((hi - 55296) * 1024 + (lo - 56320)))%N.

(** The escapes other than [\u]: the character after the backslash to the
    character it stands for. *)
Definition backslash (c : N) : option N :=
  if (c =? 34)%N then Some 34%N
  else if (c =? 92)%N then Some 92%N
  else if (c =? 47)%N then Some 47%N
  else if (c =? 98)%N then Some 8%N
  else if (c =? 102)%N then Some 12%N
  else if (c =? 110)%N then Some 10%N
  else if (c =? 114)%N then Some 13%N
  else if (c =? 116)%N then Some 9%N
  else None.

Definition unterminated : str := u "Unterminated string starting at".
Definition invalid_uXXXX : str := u "Invalid \uXXXX escape".

(** [scanstring]: [s] is the text after the opening quote, [begin] the text
    from that quote on, [acc] the characters read so far, last first. *)
Fixpoint scanstring (begin : str) (acc : str) (s : str) : scan str :=
  match s with
  | [] => ScanError unterminated begin
  | c :: r =>
      if (c =? 34)%N then Scanned (rev acc) r
      else if (c =? 92)%N then
        match r with
        | [] => ScanError unterminated begin
        | e :: r1 =>
            if (e =? 117)%N then
              match r1 with
              | h1 :: h2 :: h3 :: h4 :: r2 =>
                  match r2 with
                  | [] => ScanError invalid_uXXXX r
                  | b :: r2' =>
                      match hex4 h1 h2 h3 h4 with
                      | None => ScanError invalid_uXXXX r
                      | Some c1 =>
                          match r2' with
                          | v :: g1 :: g2 :: g3 :: g4 :: r3 =>
                              if is_high_surrogate c1 && (b =? 92)%N && (v =? 117)%N
                                 && negb (match r3 with [] => true | _ => false end)
                              then
                                match hex4 g1 g2 g3 g4 with
                                | None => ScanError invalid_uXXXX r2'
                                | Some c2 =>
                                    if is_low_surrogate c2
                                    then scanstring begin (join_surrogates c1 c2 :: acc) r3
                                    else scanstring begin (c1 :: acc) r2
                                end
                              else scanstring begin (c1 :: acc) r2
                          | _ => scanstring begin (c1 :: acc) r2
                          end
                      end
                  end
              | _ => ScanError invalid_uXXXX r
              end
            else
              match backslash e with
              | Some c' => scanstring begin (c' :: acc) r1
              | None => ScanError (u "Invalid \escape") s
              end
        end
      else if (c <=? 31)%N then ScanError (u "Invalid control character at") s
      else scanstring begin (c :: acc) r
  end.

Fixpoint span_digits (s : str) : str * str :=
  match s with
  | [] => ([], [])
  | c :: r =>
      if isdigit c then let (ds, r') := span_digits r in (c :: ds, r') else ([], s)
  end.

(** A number: an optional minus sign, then either a single 0 or a digit from
    1 to 9 followed by digits; then, optionally, a dot and one digit or more;
    then, optionally, e or E, an optional sign and one digit or more.  The
    result is the integer part, the fraction and exponent (empty when absent)
    and the rest of the text. *)
Definition match_number (s : str) : option (str * str * str) :=
  let (sign, s1) := match s with
                    | c :: r => if (c =? 45)%N then ([45%N], r) else ([], s)
                    | [] => ([], s)
                    end in
  match s1 with
  | [] => None
  | c :: r =>
      if isdigit c then
        let (int_digits, s2) :=
          if (c =? 48)%N then ([c], r)
          else let (ds, r') := span_digits r in (c :: ds, r') in
        let (frac, s3) :=
          match s2 with
          | p :: d :: r3 =>
              if (p =? 46)%N && isdigit d
              then let (ds, r') := span_digits r3 in (p :: d :: ds, r')
              else ([], s2)
          | _ => ([], s2)
          end in
        let (exp, s4) :=
          match s3 with
          | e :: r4 =>
              if ((e =? 101) || (e =? 69))%N then
                let (esign, r5) :=
                  match r4 with
                  | g :: r5 => if ((g =? 45) || (g =? 43))%N then ([g], r5) else ([], r4)
                  | [] => ([], r4)
                  end in
                match span_digits r5 with
                | ([], _) => ([], s3)
                | (ds, r') => (e :: esign ++ ds, r')
                end
              else ([], s3)
          | [] => ([], s3)
          end in
        Some (sign ++ int_digits, frac ++ exp, s4)
      else None
  end.

(** [int(lexeme)] on an optional minus sign followed by decimal digits. *)
Definition int_of_digits (ds : str) : Z :=
  fold_left (fun acc c => (acc * 10 + Z.of_N (c - 48))%Z) ds 0%Z.

Definition parse_int (lexeme : str) : Z :=
  match lexeme with
  | c :: r => if (c =? 45)%N then (- int_of_digits r)%Z else int_of_digits lexeme
  | [] => 0%Z
  end.

Definition expecting_value : str := u "Expecting value".

(** The number of digits of a lexeme made of an optional minus sign and
    digits. *)
Definition count_digits (lexeme : str) : nat :=
  match lexeme with
  | c :: r => if (c =? 45)%N then length r else length lexeme
  | [] => 0
  end.

(** The [ValueError] of [int] on a lexeme of more digits than the
    interpreter converts, [sys.get_int_max_str_digits()]. *)
Definition digits_error (limit digits : nat) : exn :=
  mkExn OtherException
    (u "Exceeds the limit (" ++ str_int (Z.of_nat limit)
       ++ u " digits) for integer string conversion: value has "
       ++ str_int (Z.of_nat digits)
       ++ u " digits; use sys.set_int_max_str_digits() to increase the limit").

(** The [RecursionError] of the scanner when it enters an object or an
    array and the interpreter allows no deeper call. *)
Definition recursion_error (what : str) : exn :=
  mkExn OtherException
    (u "maximum recursion depth exceeded while decoding a JSON " ++ what
       ++ u " from a unicode string").

Section Limits.

(** The limits of the interpreter at the call of [json.loads]: the number of
    objects and arrays the scanner can still enter one inside the other
    before the recursion limit is reached, and the greatest number of digits
    [int] converts, 0 standing for no limit. *)
Variable recursion_limit : nat.
Variable int_max_str_digits : nat.

(** [int] checks the limit on lexemes of more than 640 digits only. *)
Definition too_many_digits (lexeme : str) : bool :=
  (640 <? count_digits lexeme) && (0 <? int_max_str_digits)
  && (int_max_str_digits <? count_digits lexeme).

(** A literal word at the start of the text. *)
Definition word (w : str) (v : pyval) (s : str) : option (scan pyval) :=
  if startswith w s then Some (Scanned v (skipn (length w) s)) else None.

Definition scan_number (s : str) : scan pyval :=
  match match_number s with
  | Some (integer, [], rest) =>
      if too_many_digits integer
      then Raised (digits_error int_max_str_digits (count_digits integer))
      else Scanned (PInt (parse_int integer)) rest
  | Some (integer, fe, rest) => Scanned (PFloat (integer ++ fe)) rest
  | None => ScanError expecting_value s
  end.

(** The scanner proper.  Every call takes one unit of [fuel]; [json_loads]
    below gives it enough for the whole document.  [depth] counts the
    objects and arrays that can still be entered: entering one is a recursive
    call of the interpreter. *)
Fixpoint scan_once (fuel : nat) (depth : nat) (s : str) : scan pyval :=
  match fuel with
  | O => OutOfFuel
  | S n =>
      match s with
      | [] => ScanError expecting_value s
      | c :: r =>
          if (c =? 34)%N then
            match scanstring s [] r with
            | Scanned x rest => Scanned (PStr x) rest
            | ScanError m a => ScanError m a
            | OutOfFuel => OutOfFuel
            | Raised e => Raised e
            end
          else if (c =? 123)%N then
            match depth with
            | O => Raised (recursion_error (u "object"))
            | S deeper =>
                let r1 := skip_ws r in
                match r1 with
                | c1 :: r2 => if (c1 =? 125)%N then Scanned (PDict []) r2
                              else parse_object n deeper [] r1
                | [] => parse_object n deeper [] r1
                end
            end
          else if (c =? 91)%N then
            match depth with
            | O => Raised (recursion_error (u "array"))
            | S deeper =>
                let r1 := skip_ws r in
                match r1 with
                | c1 :: r2 => if (c1 =? 93)%N then Scanned (PList []) r2
                              else parse_array n deeper [] r1
                | [] => parse_array n deeper [] r1
                end
            end
          else
            match word (u "null") PNone s with Some x => x | None =>
            match word (u "true") (PBool true) s with Some x => x | None =>
            match word (u "false") (PBool false) s with Some x => x | None =>
            match word (u "NaN") (PFloat (u "NaN")) s with Some x => x | None =>
            match word (u "Infinity") (PFloat (u "Infinity")) s with Some x => x | None =>
            match word (u "-Infinity") (PFloat (u "-Infinity")) s with Some x => x | None =>
            scan_number s
            end end end end end end
      end
  end

(** The members of an object, [s] standing where a key is expected. *)
with parse_object (fuel : nat) (depth : nat) (d : list (str * pyval)) (s : str)
  : scan pyval :=
  match fuel with
  | O => OutOfFuel
  | S n =>
      match s with
      | [] => ScanError (u "Expecting property name enclosed in double quotes") s
      | q :: r =>
          if negb (q =? 34)%N
          then ScanError (u "Expecting property name enclosed in double quotes") s
          else
            match scanstring s [] r with
            | OutOfFuel => OutOfFuel
            | Raised e => Raised e
            | ScanError m a => ScanError m a
            | Scanned key r1 =>
                let r2 := skip_ws r1 in
                match r2 with
                | [] => ScanError (u "Expecting ':' delimiter") r2
                | c :: r3 =>
                    if negb (c =? 58)%N then ScanError (u "Expecting ':' delimiter") r2
                    else
                      match scan_once n depth (skip_ws r3) with
                      | OutOfFuel => OutOfFuel
                      | Raised e => Raised e
                      | ScanError m a => ScanError m a
                      | Scanned v r4 =>
                          let d' := dict_set d key v in
                          let r5 := skip_ws r4 in
                          match r5 with
                          | [] => ScanError (u "Expecting ',' delimiter") r5
                          | c' :: r6 =>
                              if (c' =? 125)%N then Scanned (PDict d') r6
                              else if (c' =? 44)%N
                              then parse_object n depth d' (skip_ws r6)
                              else ScanError (u "Expecting ',' delimiter") r5
                          end
                      end
                end
            end
      end
  end

(** The items of an array, [s] standing where a value is expected; [acc] holds
    the items read so far, last first. *)
with parse_array (fuel : nat) (depth : nat) (acc : list pyval) (s : str) : scan pyval :=
  match fuel with
  | O => OutOfFuel
  | S n =>
      match scan_once n depth s with
      | OutOfFuel => OutOfFuel
      | Raised e => Raised e
      | ScanError m a => ScanError m a
      | Scanned v r1 =>
          let r2 := skip_ws r1 in
          match r2 with
          | [] => ScanError (u "Expecting ',' delimiter") r2
          | c :: r3 =>
              if (c =? 93)%N then Scanned (PList (rev (v :: acc))) r3
              else if (c =? 44)%N then parse_array n depth (v :: acc) (skip_ws r3)
              else ScanError (u "Expecting ',' delimiter") r2
          end
      end
  end.

(** [JSONDecodeError.__init__]: the message with the line, the column and the
    index of the position [pos] of the document. *)
Definition count_nl (s : str) : nat :=
  length (filter (fun c => (c =? 10)%N) s).

Fixpoint after_last_nl (acc : nat) (s : str) : nat :=
  match s with
  | [] => acc
  | c :: r => if (c =? 10)%N then after_last_nl 0 r else after_last_nl (S acc) r
  end.

Definition errmsg (msg : str) (doc : str) (pos : nat) : str :=
  let before := firstn pos doc in
  let lineno := S (count_nl before) in
  let colno := S (after_last_nl 0 before) in
  msg ++ u ": line " ++ str_int (Z.of_nat lineno) ++ u " column "
      ++ str_int (Z.of_nat colno) ++ u " (char " ++ str_int (Z.of_nat pos) ++ u ")".

Definition decode_error (msg : str) (doc : str) (at_rest : str) : exn :=
  mkExn JSONDecodeError (errmsg msg doc (length doc - length at_rest)).

(** [json.loads(s)] on a [str].  The fuel given is always enough (lemma
    [fuel_enough] below), so the last case is never reached; what the
    recursion limit does is in [scan_once]. *)
Definition json_loads (s : str) : result pyval :=
  if startswith [65279%N] s
  then Raise (decode_error (u "Unexpected UTF-8 BOM (decode using utf-8-sig)") s s)
  else
    match scan_once (2 * length s + 1) recursion_limit (skip_ws s) with
    | Scanned v rest =>
        match skip_ws rest with
        | [] => Ok v
        | extra => Raise (decode_error (u "Extra data") s extra)
        end
    | ScanError msg a => Raise (decode_error msg s a)
    | Raised e => Raise e
    | OutOfFuel => Raise (mkExn OtherException (u "maximum recursion depth exceeded"))
    end.

End Limits.

End Json.

(** ** The operations of the interpreter the program uses *)

Definition type_name (v : pyval) : str :=
  match v with
  | PNone => u "NoneType"
  | PBool _ => u "bool"
  | PInt _ => u "int"
  | PFloat _ => u "float"
  | PStr _ => u "str"
  | PList _ => u "list"
  | PDict _ => u "dict"
  end.

(** [KeyError], [IndexError], [TypeError] and [AttributeError] all reach the
    last [except] clause. *)
Definition error {A : Type} (msg : str) : result A :=
  Raise (mkExn OtherException msg).

Definition not_subscriptable {A : Type} (v : pyval) : result A :=
  error (u "'" ++ type_name v ++ u "' object is not subscriptable").

(** [v[key]] for a key written as a string literal in the source.  The keys
    of the source are plain words, and [str(KeyError(key))] is such a key
    between single quotes. *)
Definition getitem (v : pyval) (key : str) : result pyval :=
  match v with
  | PDict d =>
      match dict_get d key with
      | Some x => Ok x
      | None => error (u "'" ++ key ++ u "'")
      end
  | PList _ => error (u "list indices must be integers or slices, not str")
  | PStr _ => error (u "string indices must be integers, not 'str'")
  | _ => not_subscriptable v
  end.

(** [v[i]] for an index written as a natural number in the source. *)
Definition getitem_index (v : pyval) (i : nat) : result pyval :=
  match v with
  | PList l =>
      match nth_error l i with
      | Some x => Ok x
      | None => error (u "list index out of range")
      end
  | PStr s =>
      match nth_error s i with
      | Some c => Ok (PStr [c])
      | None => error (u "string index out of range")
      end
  | PDict _ => error (str_int (Z.of_nat i))
  | _ => not_subscriptable v
  end.

(** The method [replace] exists on strings only. *)
Definition method_replace (v : pyval) (old new : str) : result str :=
  match v with
  | PStr s => Ok (replace s old new)
  | _ => error (u "'" ++ type_name v ++ u "' object has no attribute 'replace'")
  end.

(** What a [for] loop, or [enumerate], goes through: the items of a list, the
    keys of a dict, the characters of a string. *)
Definition iterate (v : pyval) : result (list pyval) :=
  match v with
  | PList l => Ok l
  | PDict d => Ok (map (fun kv => PStr (fst kv)) d)
  | PStr s => Ok (map (fun c => PStr [c]) s)
  | _ => error (u "'" ++ type_name v ++ u "' object is not iterable")
  end.

(** [x or default], [not x] and [if x] on an optional string or list: [None]
    and the empty value are false. *)
Definition or_else {A : Type} (x : option (list A)) (default : list A) : list A :=
  match x with
  | Some (a :: l) => a :: l
  | _ => default
  end.

Definition truthy {A : Type} (x : option (list A)) : bool :=
  match x with
  | Some (_ :: _) => true
  | _ => false
  end.

(** ** The world: the network and the clock *)

Record Request := mkRequest {
  req_url : str;
  req_headers : list (str * str);
  req_json : pyval
}.

(** A response is what the program asks of it: [raise_for_status()] raises an
    [HTTPError] with the given text or returns, and [json()] raises or returns
    the decoded body. *)
Record Response := mkResponse {
  http_error : option str;
  body_json : result pyval
}.

Record Date := mkDate { year : nat; month : nat; day_of_month : nat }.

(** [net] answers a request ([Raise]: [requests.post] itself raised); [sent]
    lists the requests made so far.  [clock] gives the date read by the
    successive calls of [datetime.now()], [ticks] counts these calls. *)
Record World := mkWorld {
  net : Request -> result Response;
  sent : list Request;
  clock : nat -> Date;
  ticks : nat
}.

Definition M (A : Type) : Type := World -> result A * World.

Definition ret {A : Type} (a : A) : M A := fun w => (Ok a, w).

Definition bind {A B : Type} (c : M A) (k : A -> M B) : M B :=
  fun w =>
    match c w with
    | (Ok a, w') => k a w'
    | (Raise e, w') => (Raise e, w')
    end.

Definition lift {A : Type} (r : result A) : M A := fun w => (r, w).

Definition bind_result {A B : Type} (c : result A) (k : A -> result B) : result B :=
  match c with
  | Ok a => k a
  | Raise e => Raise e
  end.

Declare Scope world_scope.
Declare Scope result_scope.
Delimit Scope world_scope with world.
Delimit Scope result_scope with result.

Notation "x <- c ;; k" := (bind c (fun x => k))
  (at level 61, c at next level, right associativity) : world_scope.
Notation "x <- c ;; k" := (bind_result c (fun x => k))
  (at level 61, c at next level, right associativity) : result_scope.

(** [requests.post(url, headers=headers, json=data)] *)
Definition requests_post (url : str) (headers : list (str * str)) (data : pyval)
  : M Response :=
  fun w =>
    let req := mkRequest url headers data in
    (net w req, mkWorld (net w) (sent w ++ [req]) (clock w) (ticks w)).

(** [response.raise_for_status()] *)
Definition raise_for_status (r : Response) : result unit :=
  match http_error r with
  | Some msg => Raise (mkExn RequestException msg)
  | None => Ok tt
  end.

Definition datetime_now : M Date :=
  fun w => (Ok (clock w (ticks w)), mkWorld (net w) (sent w) (clock w) (S (ticks w))).

Definition two_digits (n : nat) : str :=
  (if n <? 10 then u "0" else []) ++ str_int (Z.of_nat n).

(** [strftime('%Y-%m-%d')], for the years of four digits the clock gives. *)
Definition strftime_Ymd (d : Date) : str :=
  str_int (Z.of_nat (year d)) ++ u "-" ++ two_digits (month d) ++ u "-" ++ two_digits (day_of_month d).

(** A [for] loop that appends to [output] and whose body may raise. *)
Fixpoint for_each {A : Type} (items : list A) (body : str -> A -> result str)
  (output : str) : result str :=
  match items with
  | [] => Ok output
  | x :: rest =>
      match body output x with
      | Ok output' => for_each rest body output'
      | Raise e => Raise e
      end
  end.

(** ** The program *)

Section Program.

Set Default Proof Using "Type".

(** [repr] of a float, given by the number literal it was read from, and of a
    string: the interpreter's own formatting, taken as given. *)
Variable float_repr : str -> str.
Variable str_repr : str -> str.

(** The limits of the interpreter when the program calls [json.loads]: how
    many objects and arrays, one inside the other, the scanner can enter
    before the recursion limit is reached, and the number of digits of
    [sys.get_int_max_str_digits()]. *)
Variable recursion_limit : nat.
Variable int_max_str_digits : nat.

Import Json.

(** [json.loads] under these limits. *)
Abbreviation json_loads := (Json.json_loads recursion_limit int_max_str_digits).

Fixpoint py_repr (v : pyval) : str :=
  match v with
  | PNone => u "None"
  | PBool true => u "True"
  | PBool false => u "False"
  | PInt z => str_int z
  | PFloat x => float_repr x
  | PStr s => str_repr s
  | PList l => u "[" ++ join (u ", ") (map py_repr l) ++ u "]"
  | PDict d =>
      u "{" ++ join (u ", ") (map (fun kv => str_repr (fst kv) ++ u ": " ++ py_repr (snd kv)) d)
        ++ u "}"
  end.

(** A value between braces in an f-string. *)
Definition py_str (v : pyval) : str :=
  match v with
  | PStr s => s
  | _ => py_repr v
  end.

Record Generator := mkGenerator { api_url : str; api_key : str }.

(** [__init__]: [environ] is [os.environ]. *)
Definition init (environ : list (str * str)) : Generator :=
  mkGenerator (u "https://api.anthropic.com/v1/messages")
    match find (fun kv => str_eqb (fst kv) (u "ANTHROPIC_API_KEY")) environ with
    | Some kv => snd kv
    | None => []
    end.

Definition q (s : str) : str := dq ++ s ++ dq.

(** The f-string bound to [prompt] in [generate_curriculum]. *)
Definition prompt (student_name : option str) (grade_level : Z) (subjects_str : str)
  (learning_style : str) (weeks_per_year days_per_week : Z) (goals : option str) : str :=
  u "Create a detailed homeschool curriculum plan for a " ++ str_int grade_level
    ++ get_grade_suffix grade_level ++ u " grade student named "
    ++ or_else student_name (u "Student") ++ u "." ++ nl
  ++ nl
  ++ u "Subjects to cover: " ++ subjects_str ++ nl
  ++ u "Learning style: " ++ learning_style ++ nl
  ++ u "Academic year: " ++ str_int weeks_per_year ++ u " weeks, "
    ++ str_int days_per_week ++ u " days per week" ++ nl
  ++ (if truthy goals then u "Learning goals: " ++ or_else goals [] else []) ++ nl
  ++ nl
  ++ u "Please provide:" ++ nl
  ++ u "1. A brief overview of what this grade level student should learn" ++ nl
  ++ u "2. For each subject:" ++ nl
  ++ u "   - Key learning objectives" ++ nl
  ++ u "   - Recommended weekly time allocation" ++ nl
  ++ u "   - Sample activities tailored to " ++ learning_style ++ u " learning style" ++ nl
  ++ u "   - Assessment methods" ++ nl
  ++ u "   - Resource suggestions (books, websites, materials)" ++ nl
  ++ u "3. A sample weekly schedule" ++ nl
  ++ nl
  ++ u "Format your response as structured JSON with this exact format:" ++ nl
  ++ u "{" ++ nl
  ++ u "  " ++ q (u "overview") ++ u ": " ++ q (u "string") ++ u "," ++ nl
  ++ u "  " ++ q (u "subjects") ++ u ": [" ++ nl
  ++ u "    {" ++ nl
  ++ u "      " ++ q (u "name") ++ u ": " ++ q (u "string") ++ u "," ++ nl
  ++ u "      " ++ q (u "objectives") ++ u ": [" ++ q (u "string") ++ u "]," ++ nl
  ++ u "      " ++ q (u "weeklyHours") ++ u ": number," ++ nl
  ++ u "      " ++ q (u "activities") ++ u ": [" ++ q (u "string") ++ u "]," ++ nl
  ++ u "      " ++ q (u "assessments") ++ u ": [" ++ q (u "string") ++ u "]," ++ nl
  ++ u "      " ++ q (u "resources") ++ u ": [" ++ q (u "string") ++ u "]" ++ nl
  ++ u "    }" ++ nl
  ++ u "  ]," ++ nl
  ++ u "  " ++ q (u "weeklySchedule") ++ u ": [" ++ nl
  ++ u "    {" ++ nl
  ++ u "      " ++ q (u "day") ++ u ": " ++ q (u "Monday") ++ u "," ++ nl
  ++ u "      " ++ q (u "periods") ++ u ": [" ++ nl
  ++ u "        {" ++ q (u "time") ++ u ": " ++ q (u "9:00-10:00") ++ u ", "
    ++ q (u "subject") ++ u ": " ++ q (u "Math") ++ u ", "
    ++ q (u "activity") ++ u ": " ++ q (u "string") ++ u "}" ++ nl
  ++ u "      ]" ++ nl
  ++ u "    }" ++ nl
  ++ u "  ]" ++ nl
  ++ u "}" ++ nl
  ++ nl
  ++ u "Respond ONLY with valid JSON, no other text.".

(** [enumerate(items, start)] *)
Fixpoint enumerate {A : Type} (items : list A) (start : Z) : list (Z * A) :=
  match items with
  | [] => []
  | x :: rest => (start, x) :: enumerate rest (start + 1)
  end.

(** The loop [for i, obj in enumerate(..., 1): output += f"{i}. {obj}\n"],
    the same in both renderers. *)
Definition numbered (items : list pyval) (output : str) : str :=
  fold_left (fun output io => output ++ str_int (fst io) ++ u ". " ++ py_str (snd io) ++ nl)
    (enumerate items 1) output.

(** The loops [for act in ...: output += f"- {act}\n"]. *)
Definition bulleted (items : list pyval) (output : str) : str :=
  fold_left (fun output item => output ++ u "- " ++ py_str item ++ nl) items output.

Local Open Scope result_scope.

(** *** [format_curriculum_display] *)

(** The body of [for subject in curriculum['subjects']]. *)
Definition display_subject (output : str) (subject : pyval) : result str :=
  name <- getitem subject (u "name") ;;
  hours <- getitem subject (u "weeklyHours") ;;
  let output := output ++ u "### " ++ py_str name ++ u " (" ++ py_str hours
                  ++ u " hrs/week)" ++ nl ++ nl ++ u "**Objectives:**" ++ nl in
  objectives <- getitem subject (u "objectives") ;;
  objectives <- iterate objectives ;;
  let output := numbered objectives output in
  let output := output ++ nl ++ u "**Activities:**" ++ nl in
  activities <- getitem subject (u "activities") ;;
  activities <- iterate activities ;;
  let output := bulleted activities output in
  let output := output ++ nl ++ u "**Assessments:**" ++ nl in
  assessments <- getitem subject (u "assessments") ;;
  assessments <- iterate assessments ;;
  let output := bulleted assessments output in
  let output := output ++ nl ++ u "**Resources:**" ++ nl in
  resources <- getitem subject (u "resources") ;;
  resources <- iterate resources ;;
  let output := bulleted resources output in
  Ok (output ++ nl ++ u "---" ++ nl ++ nl).

(** The body of [for period in day['periods']]. *)
Definition display_period (output : str) (period : pyval) : result str :=
  time <- getitem period (u "time") ;;
  subject <- getitem period (u "subject") ;;
  activity <- getitem period (u "activity") ;;
  Ok (output ++ u "**" ++ py_str time ++ u "** - *" ++ py_str subject ++ u ":* "
        ++ py_str activity ++ nl).

(** The body of [for day in curriculum['weeklySchedule']]. *)
Definition display_day (output : str) (day : pyval) : result str :=
  name <- getitem day (u "day") ;;
  let output := output ++ u "### " ++ py_str name ++ nl in
  periods <- getitem day (u "periods") ;;
  periods <- iterate periods ;;
  output <- for_each periods display_period output ;;
  Ok (output ++ nl).

(** The function after the clock has been read: [today] is
    [datetime.now().strftime('%Y-%m-%d')]. *)
Definition display_on (today : str) (curriculum : pyval) (student_name : option str)
  (grade_level : Z) : result str :=
  overview <- getitem curriculum (u "overview") ;;
  let output :=
    u "# 📚 Homeschool Curriculum" ++ nl
    ++ u "**Student:** " ++ or_else student_name (u "Student") ++ u "  " ++ nl
    ++ u "**Grade:** " ++ str_int grade_level ++ u "  " ++ nl
    ++ u "**Generated:** " ++ today ++ nl
    ++ nl
    ++ u "---" ++ nl
    ++ nl
    ++ u "## 🎯 Overview" ++ nl
    ++ py_str overview ++ nl
    ++ nl
    ++ u "---" ++ nl
    ++ nl
    ++ u "## 📖 Subject Plans" ++ nl
    ++ nl in
  subjects <- getitem curriculum (u "subjects") ;;
  subjects <- iterate subjects ;;
  output <- for_each subjects display_subject output ;;
  let output := output ++ u "## 📅 Sample Weekly Schedule" ++ nl ++ nl in
  schedule <- getitem curriculum (u "weeklySchedule") ;;
  schedule <- iterate schedule ;;
  for_each schedule display_day output.

Definition format_curriculum_display (curriculum : pyval) (student_name : option str)
  (grade_level : Z) : M str :=
  (now <- datetime_now ;;
   lift (display_on (strftime_Ymd now) curriculum student_name grade_level))%world.

(** *** [format_curriculum_text] *)

Definition text_subject (output : str) (subject : pyval) : result str :=
  name <- getitem subject (u "name") ;;
  let output := output ++ nl ++ py_str name ++ nl in
  hours <- getitem subject (u "weeklyHours") ;;
  let output := output ++ u "Weekly Hours: " ++ py_str hours ++ nl ++ nl in
  let output := output ++ u "Objectives:" ++ nl in
  objectives <- getitem subject (u "objectives") ;;
  objectives <- iterate objectives ;;
  let output := numbered objectives output in
  let output := output ++ nl ++ u "Activities:" ++ nl in
  activities <- getitem subject (u "activities") ;;
  activities <- iterate activities ;;
  let output := bulleted activities output in
  let output := output ++ nl ++ u "Assessments:" ++ nl in
  assessments <- getitem subject (u "assessments") ;;
  assessments <- iterate assessments ;;
  let output := bulleted assessments output in
  let output := output ++ nl ++ u "Resources:" ++ nl in
  resources <- getitem subject (u "resources") ;;
  resources <- iterate resources ;;
  let output := bulleted resources output in
  Ok (output ++ nl ++ repeat 45%N 50 ++ nl).

Definition text_period (output : str) (period : pyval) : result str :=
  time <- getitem period (u "time") ;;
  subject <- getitem period (u "subject") ;;
  activity <- getitem period (u "activity") ;;
  Ok (output ++ u "  " ++ py_str time ++ u " - " ++ py_str subject ++ u ": "
        ++ py_str activity ++ nl).

Definition text_day (output : str) (day : pyval) : result str :=
  name <- getitem day (u "day") ;;
  let output := output ++ nl ++ py_str name ++ u ":" ++ nl in
  periods <- getitem day (u "periods") ;;
  periods <- iterate periods ;;
  for_each periods text_period output.

Definition text_on (today : str) (curriculum : pyval) (student_name : option str)
  (grade_level : Z) : result str :=
  overview <- getitem curriculum (u "overview") ;;
  let output :=
    u "HOMESCHOOL CURRICULUM" ++ nl
    ++ u "Student: " ++ or_else student_name (u "Student") ++ nl
    ++ u "Grade: " ++ str_int grade_level ++ nl
    ++ u "Generated: " ++ today ++ nl
    ++ nl
    ++ py_str overview ++ nl
    ++ nl
    ++ u "SUBJECTS:" ++ nl in
  subjects <- getitem curriculum (u "subjects") ;;
  subjects <- iterate subjects ;;
  output <- for_each subjects text_subject output ;;
  let output := output ++ nl ++ u "WEEKLY SCHEDULE:" ++ nl in
  schedule <- getitem curriculum (u "weeklySchedule") ;;
  schedule <- iterate schedule ;;
  for_each schedule text_day output.

Definition format_curriculum_text (curriculum : pyval) (student_name : option str)
  (grade_level : Z) : M str :=
  (now <- datetime_now ;;
   lift (text_on (strftime_Ymd now) curriculum student_name grade_level))%world.

Local Close Scope result_scope.

(** *** [generate_curriculum] *)

(** The dicts bound to [headers] and [data]. *)
Definition headers (self : Generator) : list (str * str) :=
  [ (u "Content-Type", u "application/json");
    (u "x-api-key", api_key self);
    (u "anthropic-version", u "2023-06-01") ].

Definition data (prompt : str) : pyval :=
  PDict [ (u "model", PStr (u "claude-sonnet-4-20250514"));
          (u "max_tokens", PInt 4000);
          (u "messages",
           PList [ PDict [ (u "role", PStr (u "user")); (u "content", PStr prompt) ] ]) ].

(** [text.replace('```json', '').replace('```', '').strip()] on a string. *)
Definition clean_up (text : str) : str :=
  strip (replace (replace text (u "```json") []) (u "```") []).

(** The body of the [try] statement. *)
Definition try_body (self : Generator) (headers : list (str * str)) (data : pyval)
  (student_name : option str) (grade_level : Z) : M (str * option str) :=
  (response <- requests_post (api_url self) headers data ;;
   _ <- lift (raise_for_status response) ;;
   result <- lift (body_json response) ;;
   content <- lift (getitem result (u "content")) ;;
   first <- lift (getitem_index content 0) ;;
   text <- lift (getitem first (u "text")) ;;
   (* Clean up potential markdown formatting *)
   replaced <- lift (method_replace text (u "```json") []) ;;
   let clean_text := strip (replace replaced (u "```") []) in
   curriculum_data <- lift (json_loads clean_text) ;;
   (* Format for display *)
   formatted_output <- format_curriculum_display curriculum_data student_name grade_level ;;
   (* Format for download *)
   download_text <- format_curriculum_text curriculum_data student_name grade_level ;;
   ret (formatted_output, Some download_text))%world.

(** The [except] clauses. *)
Definition handler (e : exn) : str * option str :=
  match exn_kind e with
  | RequestException => (u "❌ API request failed: " ++ exn_str e, None)
  | JSONDecodeError => (u "❌ Failed to parse curriculum data: " ++ exn_str e, None)
  | OtherException => (u "❌ Error: " ++ exn_str e, None)
  end.

Definition generate_curriculum (self : Generator) (student_name : option str)
  (grade_level : Z) (selected_subjects : option (list str)) (learning_style : str)
  (weeks_per_year days_per_week : Z) (goals : option str)
  : World -> (str * option str) * World :=
  fun w =>
    if negb (truthy selected_subjects) || (length (or_else selected_subjects []) =? 0)
    then ((u "❌ Please select at least one subject", None), w)
    else if negb (truthy (Some (api_key self)))
    then ((u "❌ API key not configured. Please add ANTHROPIC_API_KEY to Hugging Face Secrets.",
           None), w)
    else
      (* Convert selected subjects list to string *)
      let subjects_str := join (u ", ") (or_else selected_subjects []) in
      let prompt := prompt student_name grade_level subjects_str learning_style
                      weeks_per_year days_per_week goals in
      let headers := headers self in
      let data := data prompt in
      match try_body self headers data student_name grade_level w with
      | (Ok r, w') => (r, w')
      | (Raise e, w') => (handler e, w')
      end.

(** ** The curriculum record of the specification *)

Inductive number := Int (z : Z) | Float (lexeme : str).

Record Period := mkPeriod { time : str; subject : str; activity : str }.

Record DaySchedule := mkDaySchedule { day : str; periods : list Period }.

Record SubjectPlan := mkSubjectPlan {
  name : str;
  objectives : list str;
  weeklyHours : number;
  activities : list str;
  assessments : list str;
  resources : list str
}.

Record CurriculumRecord := mkCurriculumRecord {
  overview : str;
  subjects : list SubjectPlan;
  weeklySchedule : list DaySchedule
}.

Definition number_value (n : number) : pyval :=
  match n with
  | Int z => PInt z
  | Float x => PFloat x
  end.

Definition strings (l : list str) : pyval := PList (map PStr l).

(** A decoded document has the shape of a record when every field of the
    record is found under its key, with the type the record gives it.  Other
    keys, and the order of the keys, are free. *)
Definition is_period (v : pyval) (p : Period) : Prop :=
  getitem v (u "time") = Ok (PStr (time p))
  /\ getitem v (u "subject") = Ok (PStr (subject p))
  /\ getitem v (u "activity") = Ok (PStr (activity p)).

Definition is_day (v : pyval) (d : DaySchedule) : Prop :=
  getitem v (u "day") = Ok (PStr (day d))
  /\ exists l, getitem v (u "periods") = Ok (PList l) /\ Forall2 is_period l (periods d).

Definition is_subject (v : pyval) (s : SubjectPlan) : Prop :=
  getitem v (u "name") = Ok (PStr (name s))
  /\ getitem v (u "weeklyHours") = Ok (number_value (weeklyHours s))
  /\ getitem v (u "objectives") = Ok (strings (objectives s))
  /\ getitem v (u "activities") = Ok (strings (activities s))
  /\ getitem v (u "assessments") = Ok (strings (assessments s))
  /\ getitem v (u "resources") = Ok (strings (resources s)).

Definition is_record (v : pyval) (r : CurriculumRecord) : Prop :=
  getitem v (u "overview") = Ok (PStr (overview r))
  /\ (exists l, getitem v (u "subjects") = Ok (PList l) /\ Forall2 is_subject l (subjects r))
  /\ (exists l, getitem v (u "weeklySchedule") = Ok (PList l)
                /\ Forall2 is_day l (weeklySchedule r)).

(** The document with exactly the keys of the record, in the order of the
    schema of the prompt. *)
Definition encode_period (p : Period) : pyval :=
  PDict [ (u "time", PStr (time p)); (u "subject", PStr (subject p));
          (u "activity", PStr (activity p)) ].

Definition encode_day (d : DaySchedule) : pyval :=
  PDict [ (u "day", PStr (day d)); (u "periods", PList (map encode_period (periods d))) ].

Definition encode_subject (s : SubjectPlan) : pyval :=
  PDict [ (u "name", PStr (name s));
          (u "objectives", strings (objectives s));
          (u "weeklyHours", number_value (weeklyHours s));
          (u "activities", strings (activities s));
          (u "assessments", strings (assessments s));
          (u "resources", strings (resources s)) ].

Definition encode (r : CurriculumRecord) : pyval :=
  PDict [ (u "overview", PStr (overview r));
          (u "subjects", PList (map encode_subject (subjects r)));
          (u "weeklySchedule", PList (map encode_day (weeklySchedule r))) ].

(** *** The renderings, as the specification describes them

    One block a subject, one block a day and one line a period, each in the
    order of the record; the objectives of a subject numbered from 1. *)

Definition number_str (n : number) : str :=
  match n with
  | Int z => str_int z
  | Float x => float_repr x
  end.

Definition objective_lines (objectives : list str) : str :=
  flat_map (fun io => str_int (Z.of_nat (fst io)) ++ u ". " ++ snd io ++ nl)
    (combine (seq 1 (length objectives)) objectives).

Definition bullet_lines (items : list str) : str :=
  flat_map (fun item => u "- " ++ item ++ nl) items.

Definition display_subject_block (s : SubjectPlan) : str :=
  u "### " ++ name s ++ u " (" ++ number_str (weeklyHours s) ++ u " hrs/week)" ++ nl
  ++ nl
  ++ u "**Objectives:**" ++ nl ++ objective_lines (objectives s)
  ++ nl
  ++ u "**Activities:**" ++ nl ++ bullet_lines (activities s)
  ++ nl
  ++ u "**Assessments:**" ++ nl ++ bullet_lines (assessments s)
  ++ nl
  ++ u "**Resources:**" ++ nl ++ bullet_lines (resources s)
  ++ nl
  ++ u "---" ++ nl
  ++ nl.

Definition display_period_line (p : Period) : str :=
  u "**" ++ time p ++ u "** - *" ++ subject p ++ u ":* " ++ activity p ++ nl.

Definition display_day_block (d : DaySchedule) : str :=
  u "### " ++ day d ++ nl ++ flat_map display_period_line (periods d) ++ nl.

Definition display_header (today : str) (r : CurriculumRecord) (student_name : option str)
  (grade_level : Z) : str :=
  u "# 📚 Homeschool Curriculum" ++ nl
  ++ u "**Student:** " ++ or_else student_name (u "Student") ++ u "  " ++ nl
  ++ u "**Grade:** " ++ str_int grade_level ++ u "  " ++ nl
  ++ u "**Generated:** " ++ today ++ nl
  ++ nl
  ++ u "---" ++ nl
  ++ nl
  ++ u "## 🎯 Overview" ++ nl
  ++ overview r ++ nl
  ++ nl
  ++ u "---" ++ nl
  ++ nl
  ++ u "## 📖 Subject Plans" ++ nl
  ++ nl.

Definition display_rendering (today : str) (r : CurriculumRecord)
  (student_name : option str) (grade_level : Z) : str :=
  display_header today r student_name grade_level
  ++ flat_map display_subject_block (subjects r)
  ++ u "## 📅 Sample Weekly Schedule" ++ nl ++ nl
  ++ flat_map display_day_block (weeklySchedule r).

Definition text_subject_block (s : SubjectPlan) : str :=
  nl ++ name s ++ nl
  ++ u "Weekly Hours: " ++ number_str (weeklyHours s) ++ nl
  ++ nl
  ++ u "Objectives:" ++ nl ++ objective_lines (objectives s)
  ++ nl
  ++ u "Activities:" ++ nl ++ bullet_lines (activities s)
  ++ nl
  ++ u "Assessments:" ++ nl ++ bullet_lines (assessments s)
  ++ nl
  ++ u "Resources:" ++ nl ++ bullet_lines (resources s)
  ++ nl
  ++ repeat 45%N 50 ++ nl.

Definition text_period_line (p : Period) : str :=
  u "  " ++ time p ++ u " - " ++ subject p ++ u ": " ++ activity p ++ nl.

Definition text_day_block (d : DaySchedule) : str :=
  nl ++ day d ++ u ":" ++ nl ++ flat_map text_period_line (periods d).

Definition text_header (today : str) (r : CurriculumRecord) (student_name : option str)
  (grade_level : Z) : str :=
  u "HOMESCHOOL CURRICULUM" ++ nl
  ++ u "Student: " ++ or_else student_name (u "Student") ++ nl
  ++ u "Grade: " ++ str_int grade_level ++ nl
  ++ u "Generated: " ++ today ++ nl
  ++ nl
  ++ overview r ++ nl
  ++ nl
  ++ u "SUBJECTS:" ++ nl.

Definition text_rendering (today : str) (r : CurriculumRecord)
  (student_name : option str) (grade_level : Z) : str :=
  text_header today r student_name grade_level
  ++ flat_map text_subject_block (subjects r)
  ++ nl ++ u "WEEKLY SCHEDULE:" ++ nl
  ++ flat_map text_day_block (weeklySchedule r).

(** The world after one more reading of the clock. *)
Definition tick (w : World) : World :=
  mkWorld (net w) (sent w) (clock w) (S (ticks w)).

(** The date the next reading of the clock gives. *)
Definition today (w : World) : str := strftime_Ymd (clock w (ticks w)).

(** *** The stages of a call, for the statements below *)

(** The request [generate_curriculum] sends. *)
Definition the_request (self : Generator) (student_name : option str) (grade_level : Z)
  (selected_subjects : option (list str)) (learning_style : str)
  (weeks_per_year days_per_week : Z) (goals : option str) : Request :=
  mkRequest (api_url self) (headers self)
    (data (prompt student_name grade_level
             (join (u ", ") (or_else selected_subjects [])) learning_style
             weeks_per_year days_per_week goals)).

(** The world after a request. *)
Definition posted (w : World) (req : Request) : World :=
  mkWorld (net w) (sent w ++ [req]) (clock w) (ticks w).

(** [result['content'][0]['text']] of a response, after
    [raise_for_status()] and [json()]. *)
Definition reply_text (response : Response) : result pyval :=
  (_ <- raise_for_status response ;;
   result <- body_json response ;;
   content <- getitem result (u "content") ;;
   first <- getitem_index content 0 ;;
   getitem first (u "text"))%result.

(** A response of the API that carries [text]. *)
Definition reply (text : str) : Response :=
  mkResponse None (Ok (PDict [ (u "content", PList [ PDict [ (u "text", PStr text) ] ]) ])).

(** The renderings of a decoded document, display first; each reads the
    clock once. *)
Definition render (curriculum : pyval) (student_name : option str) (grade_level : Z)
  (w : World) : result (str * option str) * World :=
  match display_on (today w) curriculum student_name grade_level with
  | Raise e => (Raise e, tick w)
  | Ok formatted_output =>
      match text_on (today (tick w)) curriculum student_name grade_level with
      | Raise e => (Raise e, tick (tick w))
      | Ok download_text => (Ok (formatted_output, Some download_text), tick (tick w))
      end
  end.

(** The messages of the five kinds of failure. *)
Definition failure_message (message : str) : Prop :=
  message = u "❌ Please select at least one subject"
  \/ message
     = u "❌ API key not configured. Please add ANTHROPIC_API_KEY to Hugging Face Secrets."
  \/ (exists cause, message = u "❌ API request failed: " ++ cause)
  \/ (exists diagnostic, message = u "❌ Failed to parse curriculum data: " ++ diagnostic)
  \/ (exists cause, message = u "❌ Error: " ++ cause).

(** The line of the prompt for the goals: empty when there is none. *)
Definition goals_line (goals : option str) : str :=
  match goals with
  | Some (c :: g) => u "Learning goals: " ++ c :: g
  | _ => []
  end.

(** The characters a JSON string holds as they are: no control character, no
    double quote, no backslash. *)
Definition json_plain (s : str) : bool :=
  forallb (fun c => (32 <=? c)%N && negb (c =? 34)%N && negb (c =? 92)%N) s.

(** ** Sample inputs *)

(** The formatting of the interpreter on the values of the samples: a float
    whose literal is already its shortest form, a string of plain letters. *)
Definition repr_of_literal (lexeme : str) : str := lexeme.
Definition repr_in_quotes (s : str) : str := u "'" ++ s ++ u "'".

Definition sample_generator : Generator :=
  init [ (u "HOME", u "/home/user"); (u "ANTHROPIC_API_KEY", u "sk-ant-sample") ].

Definition keyless_generator : Generator := init [ (u "HOME", u "/home/user") ].

Definition sample_record : CurriculumRecord :=
  mkCurriculumRecord (u "Numbers and nature")
    [ mkSubjectPlan (u "Math") [ u "Count to 100"; u "Add within 20" ] (Int 5)
        [ u "Number games" ] [ u "Weekly quiz" ] [ u "Workbook" ] ]
    [ mkDaySchedule (u "Monday")
        [ mkPeriod (u "9:00-10:00") (u "Math") (u "Number games") ] ].

(** The record as the model writes it; the quotes of the JSON text are
    written as single quotes here and put back by [replace]. *)
Definition sample_json : str :=
  replace
    (u "{'overview': 'Numbers and nature', 'subjects': [{'name': 'Math', 'objectives': ['Count to 100', 'Add within 20'], 'weeklyHours': 5, 'activities': ['Number games'], 'assessments': ['Weekly quiz'], 'resources': ['Workbook']}], 'weeklySchedule': [{'day': 'Monday', 'periods': [{'time': '9:00-10:00', 'subject': 'Math', 'activity': 'Number games'}]}]}")
    (u "'") dq.

(** A world where the model answers [text] to every request and where the
    clock gives the dates [dates]. *)
Definition sample_world (text : str) (dates : nat -> Date) : World :=
  mkWorld (fun _ => Ok (reply text)) [] dates 0.

Definition january_5 : Date := mkDate 2024 1 5.
Definition january_6 : Date := mkDate 2024 1 6.

(** A clock that passes midnight after its first reading. *)
Definition over_midnight (n : nat) : Date :=
  match n with
  | O => january_5
  | S _ => january_6
  end.

(** ** The wrappers of the form *)

(** A dict with keys of any type: [d[k] = v] and [d.get(k)].  A key already
    present keeps its place and takes the new value. *)
Fixpoint assoc_set {K V : Type} (eqb : K -> K -> bool) (d : list (K * V)) (k : K) (v : V)
  : list (K * V) :=
  match d with
  | [] => [(k, v)]
  | (k', v') :: r =>
      if eqb k' k then (k', v) :: r else (k', v') :: assoc_set eqb r k v
  end.

Fixpoint assoc_get {K V : Type} (eqb : K -> K -> bool) (d : list (K * V)) (k : K)
  : option V :=
  match d with
  | [] => None
  | (k', v) :: r => if eqb k' k then Some v else assoc_get eqb r k
  end.

(** A dict display [{k1: v1, ..., kn: vn}]: the items are stored from left to
    right. *)
Definition dict_display {K V : Type} (eqb : K -> K -> bool) (items : list (K * V))
  : list (K * V) :=
  fold_left (fun d kv => assoc_set eqb d (fst kv) (snd kv)) items [].

(** The dict bound to [subject_map] in [generate_curriculum_gradio]: its keys
    are the values of the eight checkboxes. *)
Definition subject_map (math reading science social_studies art music pe language : bool)
  : list (bool * str) :=
  dict_display Bool.eqb
    [ (math, u "Math");
      (reading, u "Reading/Language Arts");
      (science, u "Science");
      (social_studies, u "Social Studies");
      (art, u "Art");
      (music, u "Music");
      (pe, u "Physical Education");
      (language, u "Foreign Language") ].

(** [[subject_map[key] for key in subject_map if key]]: the keys are those of
    the dict, so the lookup finds each of them. *)
Definition selected_of (subject_map : list (bool * str)) : list str :=
  flat_map
    (fun key : bool =>
       if key
       then match assoc_get Bool.eqb subject_map key with
            | Some label => [label]
            | None => []
            end
       else [])
    (map fst subject_map).

(** [generate_curriculum_gradio]; [generator] is the generator the module
    creates when it is loaded. *)
Definition generate_curriculum_gradio (generator : Generator) (student_name : option str)
  (grade_level : Z) (math reading science social_studies art music pe language : bool)
  (learning_style : str) (weeks days : Z) (goals : option str)
  : World -> (str * option str) * World :=
  let subject_map :=
    subject_map math reading science social_studies art music pe language in
  let selected_subjects := selected_of subject_map in
  generate_curriculum generator student_name grade_level (Some selected_subjects)
    learning_style weeks days goals.

(** The files: [write_error] tells whether writing a text under a name
    raises, [writes] lists the writes completed so far, the name and the
    text of each. *)
Record Files := mkFiles {
  write_error : str -> str -> option exn;
  writes : list (str * str)
}.

(** [with open(filename, 'w', encoding='utf-8') as f: f.write(text)] *)
Definition write_text (filename text : str) (files : Files) : result unit * Files :=
  match write_error files filename text with
  | Some e => (Raise e, files)
  | None => (Ok tt, mkFiles (write_error files) (writes files ++ [(filename, text)]))
  end.

(** [generate_and_save], the handler of the button.  Nothing catches what
    the writing of the file raises. *)
Definition generate_and_save (generator : Generator) (student_name : option str)
  (grade_level : Z) (math reading science social_studies art music pe language : bool)
  (learning_style : str) (weeks days : Z) (goals : option str)
  (w : World) (files : Files) : result (str * option str) * (World * Files) :=
  match generate_curriculum_gradio generator student_name grade_level math reading
          science social_studies art music pe language learning_style weeks days goals w
  with
  | ((display, text), w') =>
      if truthy text then
        let filename := or_else student_name (u "student") ++ u "-curriculum.txt" in
        match write_text filename (or_else text []) files with
        | (Ok _, files') => (Ok (display, Some filename), (w', files'))
        | (Raise e, files') => (Raise e, (w', files'))
        end
      else (Ok (display, None), (w', files))
  end.

(** The ordinal suffix of English: th after 11, 12 and 13 in the last two
    digits, else st, nd, rd after a last digit 1, 2, 3, and th after the
    others. *)
Definition english_suffix (n : Z) : str :=
  if ((11 <=? n mod 100) && (n mod 100 <=? 13))%Z then u "th"
  else if (n mod 10 =? 1)%Z then u "st"
  else if (n mod 10 =? 2)%Z then u "nd"
  else if (n mod 10 =? 3)%Z then u "rd"
  else u "th".

(** The label of the last ticked checkbox, if any. *)
Definition last_ticked (boxes : list (bool * str)) : list str :=
  match rev (filter fst boxes) with
  | (_, label) :: _ => [label]
  | [] => []
  end.

(** A world where every request fails with [cause], and one where every
    request is answered by [response]. *)
Definition failing_world (cause : str) : World :=
  mkWorld (fun _ => Raise (mkExn RequestException cause)) [] (fun _ => january_5) 0.

Definition answering_world (response : Response) : World :=
  mkWorld (fun _ => Ok response) [] (fun _ => january_5) 0.

(** The limits of the interpreter in the samples, its defaults: a recursion
    limit of 1000 calls, of which the decoder has less, some being in use
    when it is called, and 4300 digits. *)
Definition default_recursion_limit : nat := 1000.
Definition default_int_max_str_digits : nat := 4300.

(** A text put in front of what a computation returns. *)
Definition prepend (p : str) (r : result str) : result str :=
  match r with
  | Ok s => Ok (p ++ s)
  | Raise e => Raise e
  end.

(** The renderings up to the date. *)
Definition display_head (student_name : option str) (grade_level : Z) : str :=
  u "# 📚 Homeschool Curriculum" ++ nl
  ++ u "**Student:** " ++ or_else student_name (u "Student") ++ u "  " ++ nl
  ++ u "**Grade:** " ++ str_int grade_level ++ u "  " ++ nl
  ++ u "**Generated:** ".

Definition text_head (student_name : option str) (grade_level : Z) : str :=
  u "HOMESCHOOL CURRICULUM" ++ nl
  ++ u "Student: " ++ or_else student_name (u "Student") ++ nl
  ++ u "Grade: " ++ str_int grade_level ++ nl
  ++ u "Generated: ".

(** The decoding of a text by the grammar of JSON alone, the limits of the
    interpreter out of the way: the depth given is one no text of that length
    reaches, and 0 is no limit on the digits.  A text is valid JSON when this
    returns. *)
Definition json_decode (s : str) : result pyval :=
  Json.json_loads (2 * length s + 1) 0 s.

(** The exceptions by which [json.loads] gives up on a text for a limit of
    the interpreter: the recursion limit, entering an object or an array, and
    the limit on the digits of an integer. *)
Definition limit_error (max_digits : nat) (e : exn) : Prop :=
  e = Json.recursion_error (u "object")
  \/ e = Json.recursion_error (u "array")
  \/ exists digits, max_digits < digits /\ e = Json.digits_error max_digits digits.

(** Two computations end alike: both return, or both raise the same
    exception. *)
Definition same_outcome {A B : Type} (a : result A) (b : result B) : Prop :=
  match a, b with
  | Ok _, Ok _ => True
  | Raise e1, Raise e2 => e1 = e2
  | _, _ => False
  end.

(** * Properties *)

(** ** The guards of [generate_curriculum] *)

(** C1. For every integer grade, [get_grade_suffix] gives "st" for 1, "nd" for
    2, "rd" for 3 and "th" for every other grade; 11, 12 and 13 are among the
    others. *)
Theorem get_grade_suffix_cases (g : Z) :
  ((g = 1%Z /\ get_grade_suffix g = u "st")
   \/ (g = 2%Z /\ get_grade_suffix g = u "nd")
   \/ (g = 3%Z /\ get_grade_suffix g = u "rd")
   \/ (g <> 1%Z /\ g <> 2%Z /\ g <> 3%Z /\ get_grade_suffix g = u "th"))
  /\ get_grade_suffix 11 = u "th"
  /\ get_grade_suffix 12 = u "th"
  /\ get_grade_suffix 13 = u "th".
Proof.
  split; [| repeat split].
  unfold get_grade_suffix.
  destruct (Z.eqb_spec g 1) as [-> | H1]; [now left |].
  destruct (Z.eqb_spec g 2) as [-> | H2]; [now right; left |].
  destruct (Z.eqb_spec g 3) as [-> | H3]; [now right; right; left |].
  now right; right; right.
Qed.

Lemma no_subjects_falsy (selected_subjects : option (list str)) :
  selected_subjects = None \/ selected_subjects = Some [] ->
  negb (truthy selected_subjects) || (length (or_else selected_subjects []) =? 0) = true.
Proof. intros [-> | ->]; reflexivity. Qed.

(** C2. With no subject selected, the list empty or absent, the call returns
    the validation message and no download text, and leaves the world as it
    was: no request is sent. *)
Theorem no_subjects_no_request (self : Generator) (student_name : option str)
  (grade_level : Z) (selected_subjects : option (list str)) (learning_style : str)
  (weeks_per_year days_per_week : Z) (goals : option str) (w : World) :
  selected_subjects = None \/ selected_subjects = Some [] ->
  generate_curriculum self student_name grade_level selected_subjects learning_style
    weeks_per_year days_per_week goals w
  = ((u "❌ Please select at least one subject", None), w)
  /\ sent (snd (generate_curriculum self student_name grade_level selected_subjects
                  learning_style weeks_per_year days_per_week goals w)) = sent w.
Proof.
  intros H. unfold generate_curriculum.
  rewrite (no_subjects_falsy H). split; reflexivity.
Qed.

Lemma some_subjects_truthy (selected_subjects : option (list str)) :
  (exists s l, selected_subjects = Some (s :: l)) ->
  negb (truthy selected_subjects) || (length (or_else selected_subjects []) =? 0) = false.
Proof. intros (s & l & ->). reflexivity. Qed.

(** C3. With a subject selected and an empty API key, the call returns the
    configuration message and no download text, and leaves the world as it
    was: it fails before any request. *)
Theorem no_api_key_no_request (self : Generator) (student_name : option str)
  (grade_level : Z) (selected_subjects : option (list str)) (learning_style : str)
  (weeks_per_year days_per_week : Z) (goals : option str) (w : World) :
  (exists s l, selected_subjects = Some (s :: l)) ->
  api_key self = [] ->
  generate_curriculum self student_name grade_level selected_subjects learning_style
    weeks_per_year days_per_week goals w
  = ((u "❌ API key not configured. Please add ANTHROPIC_API_KEY to Hugging Face Secrets.",
      None), w)
  /\ sent (snd (generate_curriculum self student_name grade_level selected_subjects
                  learning_style weeks_per_year days_per_week goals w)) = sent w.
Proof.
  intros H K. unfold generate_curriculum.
  rewrite (some_subjects_truthy H), K. split; reflexivity.
Qed.

(** C10. The subjects are checked before the key: with no subject selected
    and, besides, no API key, the message is the one about the subjects. *)
Theorem subjects_checked_before_key (self : Generator) (student_name : option str)
  (grade_level : Z) (selected_subjects : option (list str)) (learning_style : str)
  (weeks_per_year days_per_week : Z) (goals : option str) (w : World) :
  selected_subjects = None \/ selected_subjects = Some [] ->
  api_key self = [] ->
  fst (fst (generate_curriculum self student_name grade_level selected_subjects
              learning_style weeks_per_year days_per_week goals w))
  = u "❌ Please select at least one subject"
  /\ fst (fst (generate_curriculum self student_name grade_level selected_subjects
                 learning_style weeks_per_year days_per_week goals w))
     <> u "❌ API key not configured. Please add ANTHROPIC_API_KEY to Hugging Face Secrets.".
Proof.
  intros H _. unfold generate_curriculum.
  rewrite (no_subjects_falsy H). cbn [fst]. split; [reflexivity |].
  intros E. apply (f_equal (fun s => nth 2 s 0%N)) in E. vm_compute in E. discriminate E.
Qed.

(** ** The renderers on a well-formed record *)

Lemma numbered_from (l : list str) : forall (n : nat) (output : str),
  fold_left (fun output io => output ++ str_int (fst io) ++ u ". " ++ py_str (snd io) ++ nl)
    (enumerate (map PStr l) (Z.of_nat n)) output
  = output ++ flat_map (fun io => str_int (Z.of_nat (fst io)) ++ u ". " ++ snd io ++ nl)
                (combine (seq n (length l)) l).
Proof.
  induction l as [| x l IH]; intros n output.
  - cbn. now rewrite app_nil_r.
  - cbn [map enumerate fold_left length seq combine flat_map fst snd py_str].
    replace (Z.of_nat n + 1)%Z with (Z.of_nat (S n)) by lia.
    rewrite IH. now rewrite <- ?app_assoc.
Qed.

Lemma numbered_strings (l : list str) (output : str) :
  numbered (map PStr l) output = output ++ objective_lines l.
Proof. exact (numbered_from l 1 output). Qed.

Lemma bulleted_strings (l : list str) : forall output : str,
  bulleted (map PStr l) output = output ++ bullet_lines l.
Proof.
  unfold bulleted, bullet_lines.
  induction l as [| x l IH]; intros output.
  - cbn. now rewrite app_nil_r.
  - cbn [map fold_left flat_map py_str]. rewrite IH. now rewrite <- ?app_assoc.
Qed.

Lemma py_str_number (n : number) : py_str (number_value n) = number_str n.
Proof. now destruct n. Qed.

(** A loop whose body appends one block for each item appends the blocks in
    the order of the items. *)
Lemma for_each_blocks {A B : Type} (shape : A -> B -> Prop) (body : str -> A -> result str)
  (block : B -> str) :
  (forall output v r, shape v r -> body output v = Ok (output ++ block r)) ->
  forall (l : list A) (rs : list B), Forall2 shape l rs ->
  forall output, for_each l body output = Ok (output ++ flat_map block rs).
Proof.
  intros Hbody l rs H. induction H as [| v r l rs Hv _ IH]; intros output.
  - cbn. now rewrite app_nil_r.
  - cbn [for_each flat_map]. rewrite (Hbody _ _ _ Hv), IH. now rewrite <- app_assoc.
Qed.

Lemma display_subject_block_ok (output : str) (v : pyval) (s : SubjectPlan) :
  is_subject v s -> display_subject output v = Ok (output ++ display_subject_block s).
Proof.
  intros (Hn & Hh & Ho & Ha & Hs & Hr). unfold display_subject.
  rewrite Hn, Hh, Ho, Ha, Hs, Hr. unfold strings. cbn [bind_result iterate].
  rewrite numbered_strings, !bulleted_strings, py_str_number.
  unfold display_subject_block. cbn [py_str]. now rewrite <- ?app_assoc.
Qed.

Lemma display_period_line_ok (output : str) (v : pyval) (p : Period) :
  is_period v p -> display_period output v = Ok (output ++ display_period_line p).
Proof.
  intros (Ht & Hs & Ha). unfold display_period. rewrite Ht, Hs, Ha.
  cbn [bind_result py_str]. unfold display_period_line. now rewrite <- ?app_assoc.
Qed.

Lemma display_day_block_ok (output : str) (v : pyval) (d : DaySchedule) :
  is_day v d -> display_day output v = Ok (output ++ display_day_block d).
Proof.
  intros (Hd & l & Hp & Hl). unfold display_day. rewrite Hd, Hp.
  cbn [bind_result iterate py_str].
  rewrite (for_each_blocks display_period display_period_line
             (fun o v p H => display_period_line_ok o H) Hl).
  cbn [bind_result]. unfold display_day_block. now rewrite <- ?app_assoc.
Qed.

Lemma display_on_record (date : str) (v : pyval) (r : CurriculumRecord)
  (student_name : option str) (grade_level : Z) :
  is_record v r ->
  display_on date v student_name grade_level
  = Ok (display_rendering date r student_name grade_level).
Proof.
  intros (Ho & (ls & Hs & Hls) & (ld & Hd & Hld)). unfold display_on.
  rewrite Ho, Hs, Hd. cbn [bind_result iterate py_str].
  rewrite (for_each_blocks display_subject display_subject_block
             (fun o v s H => display_subject_block_ok o H) Hls).
  cbn [bind_result].
  rewrite (for_each_blocks display_day display_day_block
             (fun o v d H => display_day_block_ok o H) Hld).
  unfold display_rendering, display_header. now rewrite <- ?app_assoc.
Qed.

Lemma text_subject_block_ok (output : str) (v : pyval) (s : SubjectPlan) :
  is_subject v s -> text_subject output v = Ok (output ++ text_subject_block s).
Proof.
  intros (Hn & Hh & Ho & Ha & Hs & Hr). unfold text_subject.
  rewrite Hn, Hh, Ho, Ha, Hs, Hr. unfold strings. cbn [bind_result iterate].
  rewrite numbered_strings, !bulleted_strings, py_str_number.
  unfold text_subject_block. cbn [py_str]. now rewrite <- ?app_assoc.
Qed.

Lemma text_period_line_ok (output : str) (v : pyval) (p : Period) :
  is_period v p -> text_period output v = Ok (output ++ text_period_line p).
Proof.
  intros (Ht & Hs & Ha). unfold text_period. rewrite Ht, Hs, Ha.
  cbn [bind_result py_str]. unfold text_period_line. now rewrite <- ?app_assoc.
Qed.

Lemma text_day_block_ok (output : str) (v : pyval) (d : DaySchedule) :
  is_day v d -> text_day output v = Ok (output ++ text_day_block d).
Proof.
  intros (Hd & l & Hp & Hl). unfold text_day. rewrite Hd, Hp.
  cbn [bind_result iterate py_str].
  rewrite (for_each_blocks text_period text_period_line
             (fun o v p H => text_period_line_ok o H) Hl).
  unfold text_day_block. now rewrite <- ?app_assoc.
Qed.

Lemma text_on_record (date : str) (v : pyval) (r : CurriculumRecord)
  (student_name : option str) (grade_level : Z) :
  is_record v r ->
  text_on date v student_name grade_level
  = Ok (text_rendering date r student_name grade_level).
Proof.
  intros (Ho & (ls & Hs & Hls) & (ld & Hd & Hld)). unfold text_on.
  rewrite Ho, Hs, Hd. cbn [bind_result iterate py_str].
  rewrite (for_each_blocks text_subject text_subject_block
             (fun o v s H => text_subject_block_ok o H) Hls).
  cbn [bind_result].
  rewrite (for_each_blocks text_day text_day_block
             (fun o v d H => text_day_block_ok o H) Hld).
  unfold text_rendering, text_header. now rewrite <- ?app_assoc.
Qed.

Lemma format_curriculum_display_eq (v : pyval) (student_name : option str)
  (grade_level : Z) (w : World) :
  format_curriculum_display v student_name grade_level w
  = (display_on (today w) v student_name grade_level, tick w).
Proof. reflexivity. Qed.

Lemma format_curriculum_text_eq (v : pyval) (student_name : option str)
  (grade_level : Z) (w : World) :
  format_curriculum_text v student_name grade_level w
  = (text_on (today w) v student_name grade_level, tick w).
Proof. reflexivity. Qed.

(** C5. On a document with the shape of a curriculum record, both renderers
    succeed, and what they return is the header followed by one block for
    each subject, in the order of the record, then one block for each day of
    the schedule with one line for each of its periods, in the order of the
    record; within each subject the objectives are numbered 1, 2, 3, ... *)
Theorem renderers_keep_record_order (v : pyval) (r : CurriculumRecord)
  (student_name : option str) (grade_level : Z) (w : World) :
  is_record v r ->
  format_curriculum_display v student_name grade_level w
  = (Ok (display_rendering (today w) r student_name grade_level), tick w)
  /\ format_curriculum_text v student_name grade_level w
     = (Ok (text_rendering (today w) r student_name grade_level), tick w).
Proof.
  intros H.
  rewrite format_curriculum_display_eq, format_curriculum_text_eq.
  now rewrite (display_on_record _ _ _ H), (text_on_record _ _ _ H).
Qed.

(** ** String lemmas *)

Lemma startswith_iff (p : str) : forall s : str,
  startswith p s = true <-> exists r, s = p ++ r.
Proof.
  induction p as [| x p IH]; intros s.
  - split; [intros _; now exists s | reflexivity].
  - destruct s as [| y s]; cbn [startswith].
    + split; [discriminate | intros (r & E); discriminate E].
    + rewrite andb_true_iff, N.eqb_eq, IH. split.
      * intros (-> & r & ->). now exists r.
      * intros (r & E). injection E as -> ->. split; [reflexivity | now exists r].
Qed.

Lemma contains_iff (p : str) : forall s : str,
  contains p s = true <-> exists a b, s = a ++ p ++ b.
Proof.
  induction s as [| c s IH]; cbn [contains]; rewrite orb_true_iff, startswith_iff.
  - split.
    + intros [(r & E) | H]; [| discriminate H]. now exists [], r.
    + intros (a & b & E). left. destruct a; [now exists b |]. discriminate E.
  - rewrite IH. split.
    + intros [(r & E) | (a & b & ->)]; [now exists [], r | now exists (c :: a), b].
    + intros (a & b & E). destruct a as [| c' a].
      * left. now exists b.
      * right. injection E as _ ->. now exists a, b.
Qed.

Lemma contains_false_inv (p : str) (c : N) (s : str) :
  contains p (c :: s) = false -> startswith p (c :: s) = false /\ contains p s = false.
Proof. cbn [contains]. now rewrite orb_false_iff. Qed.

Lemma replace_from_skip (old new p : str) (s : str) :
  replace_from old new (length p) (p ++ s) = replace_from old new 0 s.
Proof. induction p as [| c p IH]; [reflexivity | exact IH]. Qed.

(** An occurrence at the head of the text is replaced. *)
Lemma replace_from_here (o : N) (old new s : str) :
  replace_from (o :: old) new 0 ((o :: old) ++ s) = new ++ replace_from (o :: old) new 0 s.
Proof.
  cbn [app replace_from].
  replace (startswith (o :: old) (o :: old ++ s)) with true
    by (symmetry; apply startswith_iff; now exists s).
  replace (length (o :: old) - 1) with (length old) by (cbn [length]; lia).
  now rewrite replace_from_skip.
Qed.

(** A character that does not begin an occurrence is kept. *)
Lemma replace_from_keep (old new : str) (c : N) (s : str) :
  startswith old (c :: s) = false ->
  replace_from old new 0 (c :: s) = c :: replace_from old new 0 s.
Proof. intros H. cbn [replace_from]. now rewrite H. Qed.

(** A text without occurrence is unchanged. *)
Lemma replace_from_none (old new : str) : forall s : str,
  contains old s = false -> replace_from old new 0 s = s.
Proof.
  induction s as [| c s IH]; [reflexivity |]. intros H.
  apply contains_false_inv in H as (H1 & H2).
  now rewrite replace_from_keep, IH.
Qed.

(** A text in which some character of [old] is missing holds no occurrence. *)
Lemma contains_missing_char (old s : str) (c : N) :
  In c old -> ~ In c s -> contains old s = false.
Proof.
  intros Hc Hs. destruct (contains old s) eqn:E; [| reflexivity].
  apply contains_iff in E as (a & b & ->). exfalso. apply Hs.
  rewrite !in_app_iff. auto.
Qed.

Lemma lstrip_suffix (s : str) : exists a, s = a ++ lstrip s.
Proof.
  induction s as [| c s (a & IH)]; [now exists [] |]. cbn [lstrip].
  destruct (isspace c); [| now exists []]. exists (c :: a). cbn. now rewrite <- IH.
Qed.

Lemma rstrip_prefix (s : str) : exists a, s = rstrip s ++ a.
Proof.
  unfold rstrip. destruct (lstrip_suffix (rev s)) as (a & E).
  exists (rev a). rewrite <- rev_app_distr, <- E. now rewrite rev_involutive.
Qed.

(** [strip] returns a part of the text: it brings no new occurrence. *)
Lemma contains_strip (p s : str) : contains p s = false -> contains p (strip s) = false.
Proof.
  intros H. destruct (contains p (strip s)) eqn:E; [| reflexivity].
  apply contains_iff in E as (a & b & E). unfold strip in E.
  destruct (lstrip_suffix s) as (x & Hx). destruct (rstrip_prefix (lstrip s)) as (y & Hy).
  assert (contains p s = true) as K; [| congruence].
  apply contains_iff. exists (x ++ a), (b ++ y).
  rewrite Hx, Hy, E. now rewrite <- !app_assoc.
Qed.

(** ** The cleaning of the response *)

Lemma u_fence : u "```" = [96; 96; 96]%N.
Proof. reflexivity. Qed.

Lemma u_fence_json : u "```json" = [96; 96; 96; 106; 115; 111; 110]%N.
Proof. reflexivity. Qed.

(** Decides the comparisons of characters in the goal. *)
Ltac compare_chars :=
  repeat match goal with
         | |- context [(?a =? ?b)%N] =>
             destruct (N.eqb_spec a b); try subst; try discriminate;
             try contradiction; cbn [andb orb negb]
         end.

(** Removing the fences of a text that does not begin with two backticks
    gives a text that does not begin with two backticks. *)
Lemma no_double_backtick_after (r : str) :
  startswith [96; 96]%N r = false ->
  startswith [96; 96]%N (replace_from [96; 96; 96]%N [] 0 r) = false.
Proof.
  intros H. destruct r as [| x [| y r]]; [reflexivity | |].
  - cbn [replace_from startswith]. rewrite andb_false_r. cbn [startswith].
    now rewrite andb_false_r.
  - cbn [startswith] in H. cbn [replace_from startswith app].
    revert H. compare_chars; intros H; try discriminate H; cbn [startswith];
      compare_chars; try reflexivity.
Qed.

Lemma no_fence_left_bounded (n : nat) : forall s : str,
  length s <= n -> contains [96; 96; 96]%N (replace_from [96; 96; 96]%N [] 0 s) = false.
Proof.
  induction n as [| n IH]; intros s Hlen.
  - destruct s; [reflexivity | cbn in Hlen; lia].
  - destruct s as [| c r]; [reflexivity |].
    destruct (startswith [96; 96; 96]%N (c :: r)) eqn:E.
    + apply startswith_iff in E as (r' & E). rewrite E, replace_from_here.
      apply IH. rewrite E in Hlen. cbn in Hlen |- *. lia.
    + rewrite replace_from_keep by exact E. cbn [contains].
      rewrite IH by (cbn in Hlen; lia). rewrite orb_false_r.
      cbn [startswith] in E |- *.
      destruct (N.eqb_spec 96 c); [| reflexivity]. cbn [andb] in E |- *.
      now apply no_double_backtick_after.
Qed.

(** After [replace('```', '')] no run of three backticks is left. *)
Lemma no_fence_left (s : str) :
  contains (u "```") (replace s (u "```") []) = false.
Proof.
  rewrite u_fence. unfold replace.
  apply no_fence_left_bounded with (n := length s). apply le_n.
Qed.

Lemma fence_in_json_fence (s : str) :
  contains (u "```") s = false -> contains (u "```json") s = false.
Proof.
  intros H. destruct (contains (u "```json") s) eqn:E; [| reflexivity].
  apply contains_iff in E as (a & b & ->). rewrite <- H. symmetry.
  apply contains_iff. exists a, (u "json" ++ b). reflexivity.
Qed.

Lemma space_not_backtick (c : N) : isspace c = true -> c <> 96%N.
Proof. intros H ->. discriminate H. Qed.

Lemma space_not_j (c : N) : isspace c = true -> c <> 106%N.
Proof. intros H ->. discriminate H. Qed.

Lemma all_space_cons (c : N) (s : str) :
  all_space (c :: s) = true -> isspace c = true /\ all_space s = true.
Proof. unfold all_space. cbn [forallb]. now rewrite andb_true_iff. Qed.

Lemma all_space_app (a b : str) :
  all_space (a ++ b) = all_space a && all_space b.
Proof. apply forallb_app. Qed.

Lemma all_space_no_char (c : N) (s : str) :
  isspace c = false -> all_space s = true -> ~ In c s.
Proof.
  intros Hc Hs Hin. unfold all_space in Hs. rewrite forallb_forall in Hs.
  specialize (Hs c Hin). congruence.
Qed.

(** A stretch of whitespace holds no occurrence of a text that begins with a
    backtick, and none begins in it. *)
Lemma replace_from_over_space (old new ws s : str) :
  all_space ws = true ->
  replace_from (96%N :: old) new 0 (ws ++ s) = ws ++ replace_from (96%N :: old) new 0 s.
Proof.
  induction ws as [| c ws IH]; [reflexivity |]. intros H.
  apply all_space_cons in H as (Hc & Hws). apply space_not_backtick in Hc.
  cbn [app]. rewrite replace_from_keep, IH; [reflexivity | exact Hws |].
  cbn [startswith]. destruct (N.eqb_spec 96 c); [congruence | reflexivity].
Qed.

Lemma replace_from_space (old new ws : str) :
  all_space ws = true -> replace_from (96%N :: old) new 0 ws = ws.
Proof.
  intros H. rewrite <- (app_nil_r ws) at 1. rewrite replace_from_over_space by exact H.
  cbn [replace_from]. apply app_nil_r.
Qed.

(** Whitespace after at most two backticks does not complete a fence. *)
Lemma no_fence_backticks_space (ws : str) :
  all_space ws = true ->
  startswith [96; 96; 96]%N (96%N :: ws) = false
  /\ startswith [96; 96; 96]%N (96%N :: 96%N :: ws) = false.
Proof.
  intros H. destruct ws as [| x ws]; [split; reflexivity |].
  apply all_space_cons in H as (Hx & _). apply space_not_backtick in Hx.
  cbn [startswith]. split; compare_chars; reflexivity.
Qed.

(** The first pass, over what follows the opening fence: nothing changes. *)
Lemma json_fence_pass (ws3 ws4 : str) :
  all_space ws3 = true -> all_space ws4 = true ->
  forall body : str,
  contains [96; 96; 96]%N body = false ->
  replace_from [96; 96; 96; 106; 115; 111; 110]%N [] 0
    (body ++ ws3 ++ [96; 96; 96]%N ++ ws4)
  = body ++ ws3 ++ [96; 96; 96]%N ++ ws4.
Proof.
  clear float_repr str_repr.
  intros H3 H4. induction body as [| c b IH]; intros Hb.
  - rewrite app_nil_l. apply replace_from_none.
    apply contains_missing_char with (c := 106%N); [cbn; tauto |].
    rewrite !in_app_iff. intros [H | [H | H]].
    + now apply (all_space_no_char 106%N) in H3.
    + cbn in H. intuition discriminate.
    + now apply (all_space_no_char 106%N) in H4.
  - apply contains_false_inv in Hb as (Hc & Hb).
    rewrite <- app_comm_cons. rewrite replace_from_keep, IH; [reflexivity | exact Hb |].
    destruct b as [| c2 [| c3 b]].
    + destruct ws3 as [| x ws3]; cbn [app startswith].
      * compare_chars; reflexivity.
      * apply all_space_cons in H3 as (Hx & _). apply space_not_backtick in Hx.
        compare_chars; reflexivity.
    + destruct ws3 as [| x ws3]; cbn [app startswith].
      * compare_chars; reflexivity.
      * apply all_space_cons in H3 as (Hx & _). apply space_not_backtick in Hx.
        compare_chars; reflexivity.
    + cbn [app startswith] in Hc |- *. revert Hc.
      compare_chars; intros Hc; try reflexivity; discriminate Hc.
Qed.

(** The second pass, over the body and the closing fence: the fence goes. *)
Lemma fence_pass (ws3 ws4 : str) :
  all_space ws3 = true -> all_space ws4 = true ->
  forall body : str,
  contains [96; 96; 96]%N body = false ->
  replace_from [96; 96; 96]%N [] 0 (body ++ ws3 ++ [96; 96; 96]%N ++ ws4)
  = body ++ ws3 ++ ws4.
Proof.
  intros H3 H4. induction body as [| c b IH]; intros Hb.
  - rewrite !app_nil_l. rewrite replace_from_over_space by exact H3.
    rewrite replace_from_here, app_nil_l. now rewrite replace_from_space.
  - apply contains_false_inv in Hb as (Hc & Hb). rewrite <- app_comm_cons.
    destruct (startswith [96; 96; 96]%N (c :: b ++ ws3 ++ [96; 96; 96]%N ++ ws4)) eqn:E.
    + destruct (no_fence_backticks_space ws4 H4) as (K1 & K2).
      destruct b as [| c2 [| c3 b]].
      * destruct ws3 as [| x ws3]; cbn [app startswith] in E |- *.
        -- revert E. compare_chars; intros E; try discriminate E.
           change (replace_from [96; 96; 96]%N [] 0 ([96; 96; 96]%N ++ 96%N :: ws4)
                   = 96%N :: ws4).
           rewrite replace_from_here. cbn [app].
           rewrite replace_from_keep by exact K1. now rewrite replace_from_space.
        -- apply all_space_cons in H3 as (Hx & _). apply space_not_backtick in Hx.
           revert E. compare_chars; intros E; discriminate E.
      * destruct ws3 as [| x ws3]; cbn [app startswith] in E |- *.
        -- revert E. compare_chars; intros E; try discriminate E.
           change (replace_from [96; 96; 96]%N [] 0
                     ([96; 96; 96]%N ++ 96%N :: 96%N :: ws4)
                   = 96%N :: 96%N :: ws4).
           rewrite replace_from_here. cbn [app].
           rewrite replace_from_keep by exact K2.
           rewrite replace_from_keep by exact K1. now rewrite replace_from_space.
        -- apply all_space_cons in H3 as (Hx & _). apply space_not_backtick in Hx.
           revert E. compare_chars; intros E; discriminate E.
      * cbn [app startswith] in Hc, E. revert Hc E.
        compare_chars; intros Hc E; try discriminate Hc; discriminate E.
    + rewrite replace_from_keep by exact E. now rewrite IH.
Qed.

Lemma lstrip_over_space (ws s : str) : all_space ws = true -> lstrip (ws ++ s) = lstrip s.
Proof.
  induction ws as [| c ws IH]; [reflexivity |]. intros H.
  apply all_space_cons in H as (Hc & Hws). cbn [app lstrip]. rewrite Hc. now apply IH.
Qed.

Lemma lstrip_space (ws : str) : all_space ws = true -> lstrip ws = [].
Proof. intros H. rewrite <- (app_nil_r ws). now rewrite lstrip_over_space. Qed.

Lemma lstrip_app (a b : str) :
  lstrip (a ++ b) = if all_space a then lstrip b else lstrip a ++ b.
Proof.
  induction a as [| c a IH]; [reflexivity |]. unfold all_space in *.
  cbn [app lstrip forallb]. destruct (isspace c); [exact IH | reflexivity].
Qed.

Lemma all_space_rev (ws : str) : all_space (rev ws) = all_space ws.
Proof.
  induction ws as [| c ws IH]; [reflexivity |].
  cbn [rev]. rewrite all_space_app, IH. unfold all_space. cbn [forallb].
  rewrite andb_true_r. apply andb_comm.
Qed.

Lemma rstrip_over_space (s ws : str) : all_space ws = true -> rstrip (s ++ ws) = rstrip s.
Proof.
  intros H. unfold rstrip. rewrite rev_app_distr.
  rewrite lstrip_over_space; [reflexivity | now rewrite all_space_rev].
Qed.

(** Whitespace around a text does not change what [strip] returns. *)
Lemma strip_over_space (ws1 s ws2 : str) :
  all_space ws1 = true -> all_space ws2 = true -> strip (ws1 ++ s ++ ws2) = strip s.
Proof.
  intros H1 H2. unfold strip. rewrite lstrip_over_space by exact H1.
  rewrite lstrip_app. destruct (all_space s) eqn:E.
  - now rewrite (lstrip_space ws2), (lstrip_space s).
  - now apply rstrip_over_space.
Qed.

(** A text without fence is only stripped. *)
Lemma clean_up_no_fence (text : str) :
  contains (u "```") text = false -> clean_up text = strip text.
Proof.
  intros H. unfold clean_up, replace. rewrite u_fence_json, u_fence.
  rewrite (@replace_from_none _ [] text) by (rewrite <- u_fence_json; now apply fence_in_json_fence).
  rewrite replace_from_none; [reflexivity | now rewrite <- u_fence].
Qed.

(** What is left of a fenced text: the body, stripped. *)
Lemma clean_up_fenced (ws1 opening ws2 body ws3 ws4 : str) :
  all_space ws1 = true -> all_space ws2 = true ->
  all_space ws3 = true -> all_space ws4 = true ->
  contains (u "```") body = false ->
  opening = u "```json" \/ (opening = u "```" /\ ws2 <> []) ->
  clean_up (ws1 ++ opening ++ ws2 ++ body ++ ws3 ++ u "```" ++ ws4) = strip body.
Proof.
  intros H1 H2 H3 H4 Hb Ho. unfold clean_up, replace.
  rewrite u_fence_json, u_fence in *.
  assert (strip (ws1 ++ ws2 ++ body ++ ws3 ++ ws4) = strip body) as K.
  { replace (ws1 ++ ws2 ++ body ++ ws3 ++ ws4) with ((ws1 ++ ws2) ++ body ++ (ws3 ++ ws4))
      by now rewrite <- ?app_assoc.
    apply strip_over_space; rewrite all_space_app; [now rewrite H1, H2 | now rewrite H3, H4]. }
  rewrite <- K. f_equal.
  rewrite (replace_from_over_space [96; 96; 106; 115; 111; 110]%N [] ws1) by exact H1.
  destruct Ho as [-> | (-> & Hw)].
  - rewrite replace_from_here, app_nil_l.
    rewrite (replace_from_over_space [96; 96; 106; 115; 111; 110]%N [] ws2) by exact H2.
    rewrite json_fence_pass by assumption.
    rewrite !replace_from_over_space by assumption.
    now rewrite fence_pass.
  - destruct ws2 as [| x ws2]; [congruence |].
    destruct (all_space_cons _ _ H2) as (Hx & _).
    pose proof (space_not_j Hx) as Hj. apply space_not_backtick in Hx.
    change ([96; 96; 96]%N ++ (x :: ws2) ++ body ++ ws3 ++ [96; 96; 96]%N ++ ws4)
      with (96%N :: 96%N :: 96%N :: (x :: ws2) ++ body ++ ws3 ++ [96; 96; 96]%N ++ ws4).
    rewrite !(replace_from_keep [96; 96; 96; 106; 115; 111; 110]%N);
      [| rewrite <- app_comm_cons; cbn [startswith]; compare_chars; reflexivity ..].
    rewrite (replace_from_over_space [96; 96; 106; 115; 111; 110]%N [] (x :: ws2))
      by exact H2.
    rewrite json_fence_pass by assumption.
    rewrite replace_from_over_space by exact H1.
    change (96%N :: 96%N :: 96%N :: (x :: ws2) ++ body ++ ws3 ++ [96; 96; 96]%N ++ ws4)
      with ([96; 96; 96]%N ++ (x :: ws2) ++ body ++ ws3 ++ [96; 96; 96]%N ++ ws4).
    rewrite replace_from_here, app_nil_l.
    rewrite replace_from_over_space by exact H2.
    now rewrite fence_pass.
Qed.

(** ** The decoder terminates on its own: the fuel is never used up *)

Lemma skip_ws_le (s : str) : length (skip_ws s) <= length s.
Proof.
  induction s as [| c s IH]; [apply le_n |]. cbn [skip_ws].
  destruct (is_ws c); cbn [length]; lia.
Qed.

Lemma span_digits_le (s : str) : length (snd (span_digits s)) <= length s.
Proof.
  induction s as [| c s IH]; [apply le_n |]. cbn [span_digits].
  destruct (isdigit c); [| apply le_n].
  destruct (span_digits s). cbn [snd length] in *. lia.
Qed.

Lemma scanstring_lt (n : nat) : forall (begin acc s x rest : str),
  length s <= n -> scanstring begin acc s = Scanned x rest -> length rest < length s.
Proof.
  induction n as [| n IH]; intros begin acc s x rest Hn H.
  - destruct s; [discriminate H | cbn in Hn; lia].
  - destruct s as [| c r]; [discriminate H |]. cbn [scanstring] in H.
    repeat match type of H with
           | _ => progress cbv beta iota in H
           | context [match ?t with _ => _ end] => destruct t; try discriminate H
           end;
      cbn [length] in *;
      first [ injection H as _ <-; lia
            | apply IH in H; cbn [length] in *; lia ].
Qed.

Lemma match_number_lt (s integer fe rest : str) :
  match_number s = Some (integer, fe, rest) -> length rest < length s.
Proof.
  unfold match_number. intros H.
  repeat match type of H with
         | _ => progress cbv beta iota in H
         | context [span_digits ?t] =>
             let E := fresh "E" in
             pose proof (span_digits_le t) as E; destruct (span_digits t); cbn [snd] in E
         | context [match ?t with _ => _ end] =>
             lazymatch t with
             | context [match _ with _ => _ end] => fail
             | _ => destruct t; try discriminate H
             end
         end;
    injection H as _ _ <-; cbn [length] in *; lia.
Qed.

Lemma startswith_length (p s : str) : startswith p s = true -> length p <= length s.
Proof.
  intros H. apply startswith_iff in H as (r & ->). rewrite length_app. lia.
Qed.

Lemma word_lt (w : str) (v v' : pyval) (s rest : str) :
  0 < length w -> word w v s = Some (Scanned v' rest) -> length rest < length s.
Proof.
  unfold word. intros Hw H. destruct (startswith w s) eqn:E; [| discriminate H].
  injection H as _ <-. apply startswith_length in E. rewrite length_skipn. lia.
Qed.

Lemma word_scanned (w : str) (v : pyval) (s : str) (x : scan pyval) :
  word w v s = Some x -> exists rest, x = Scanned v rest.
Proof.
  unfold word. destruct (startswith w s); [| discriminate].
  intros H. injection H as <-. eauto.
Qed.

Lemma scan_number_lt (D : nat) (s : str) (v : pyval) (rest : str) :
  scan_number D s = Scanned v rest -> length rest < length s.
Proof.
  unfold scan_number. destruct (match_number s) as [[[i fe] r] |] eqn:E; [| discriminate].
  apply match_number_lt in E.
  destruct fe; [destruct (too_many_digits D i); [discriminate |] |];
    intros H; injection H as _ <-; exact E.
Qed.

Lemma scan_number_fuel (D : nat) (s : str) : scan_number D s <> OutOfFuel.
Proof.
  unfold scan_number.
  destruct (match_number s) as [[[i fe] r] |];
    [destruct fe; [destruct (too_many_digits D i) |] |]; discriminate.
Qed.

(** Collects, for what has been scanned in [H], how much text it used. *)
Ltac scan_cases H IHs IHo IHa :=
  repeat match type of H with
         | _ => progress cbv beta iota zeta in H
         | context [skip_ws ?t] =>
             let E := fresh "E" in
             pose proof (skip_ws_le t) as E; destruct (skip_ws t); cbn [length] in E
         | context [scanstring ?b ?a ?t] =>
             let E := fresh "E" in
             destruct (scanstring b a t) eqn:E;
             [apply (@scanstring_lt (length t)) in E; [| apply le_n] | | |];
             try discriminate H
         | context [match scan_once ?D ?n ?d ?t with _ => _ end] =>
             let E := fresh "E" in
             destruct (scan_once D n d t) eqn:E; [apply IHs in E | | |];
             try discriminate H
         | context [match ?t with _ => _ end] => destruct t eqn:?; try discriminate H
         end.

Lemma scanned_lt (D n : nat) :
  (forall depth s v rest,
     scan_once D n depth s = Scanned v rest -> length rest < length s)
  /\ (forall depth d s v rest,
        parse_object D n depth d s = Scanned v rest -> length rest < length s)
  /\ (forall depth acc s v rest,
        parse_array D n depth acc s = Scanned v rest -> length rest < length s).
Proof.
  induction n as [| n (IHs & IHo & IHa)]; [repeat split; intros; discriminate |].
  repeat split.
  - intros depth s v rest H. cbn [scan_once] in H.
    destruct s as [| c r]; [discriminate H |].
    destruct (c =? 34)%N.
    { scan_cases H IHs IHo IHa. injection H as _ <-. cbn [length] in *. lia. }
    destruct (c =? 123)%N.
    { scan_cases H IHs IHo IHa; cbn [length] in *;
        first [ discriminate H
            | injection H as _ <-; cbn [length] in *; lia
              | apply IHo in H; cbn [length] in *; lia ]. }
    destruct (c =? 91)%N.
    { scan_cases H IHs IHo IHa; cbn [length] in *;
        first [ discriminate H
            | injection H as _ <-; cbn [length] in *; lia
              | apply IHa in H; cbn [length] in *; lia ]. }
    repeat match type of H with
           | context [word ?w ?x ?t] =>
               let E := fresh "E" in
               destruct (word w x t) eqn:E;
               [destruct (word_scanned _ _ _ E) as (? & ->); apply word_lt in E;
                [injection H as _ <-; exact E | cbn; lia] |]
           end.
    now apply scan_number_lt in H.
  - intros depth d s v rest H. cbn [parse_object] in H.
    scan_cases H IHs IHo IHa; cbn [length] in *;
      first [ discriminate H
            | injection H as _ <-; cbn [length] in *; lia
            | apply IHo in H; cbn [length] in *;
              try match type of H with
                  | context [skip_ws ?t] => pose proof (skip_ws_le t)
                  end; lia ].
  - intros depth acc s v rest H. cbn [parse_array] in H.
    scan_cases H IHs IHo IHa; cbn [length] in *;
      first [ discriminate H
            | injection H as _ <-; cbn [length] in *; lia
            | apply IHa in H; cbn [length] in *;
              try match type of H with
                  | context [skip_ws ?t] => pose proof (skip_ws_le t)
                  end; lia ].
Qed.

Lemma scanstring_fuel (n : nat) : forall (begin acc s : str),
  length s <= n -> scanstring begin acc s <> OutOfFuel.
Proof.
  induction n as [| n IH]; intros begin acc s Hn H.
  - destruct s; [discriminate H | cbn in Hn; lia].
  - destruct s as [| c r]; [discriminate H |]. cbn [scanstring] in H.
    repeat match type of H with
           | _ => progress cbv beta iota in H
           | context [match ?t with _ => _ end] => destruct t; try discriminate H
           end;
      cbn [length] in *; revert H; apply IH; cbn [length]; lia.
Qed.

Ltac fuel_cases H IHs :=
  repeat match type of H with
         | _ => progress cbv beta iota zeta in H
         | context [skip_ws ?t] =>
             let E := fresh "E" in
             pose proof (skip_ws_le t) as E; destruct (skip_ws t); cbn [length] in E
         | context [scanstring ?b ?a ?t] =>
             let E := fresh "E" in
             destruct (scanstring b a t) eqn:E;
             [ apply (@scanstring_lt (length t)) in E; [| apply le_n]
             | | exfalso; exact (@scanstring_fuel (length t) _ _ _ (le_n _) E) | ];
             try discriminate H
         | context [match scan_once ?D ?n ?d ?t with _ => _ end] =>
             let E := fresh "E" in
             destruct (scan_once D n d t) eqn:E;
             [ apply (proj1 (scanned_lt D n)) in E
             | | exfalso; revert E; apply IHs; cbn [length] in *; lia | ];
             try discriminate H
         | context [match ?t with _ => _ end] => destruct t eqn:?; try discriminate H
         end.

(** With two units of fuel for each character of the text and one more, the
    scanner does not run out of fuel. *)
Lemma fuel_enough (D n : nat) :
  (forall depth s, 2 * length s + 1 <= n -> scan_once D n depth s <> OutOfFuel)
  /\ (forall depth d s, 2 * length s + 2 <= n -> parse_object D n depth d s <> OutOfFuel)
  /\ (forall depth acc s, 2 * length s + 2 <= n -> parse_array D n depth acc s <> OutOfFuel).
Proof.
  induction n as [| n (IHs & IHo & IHa)]; [repeat split; intros; lia |].
  repeat split.
  - intros depth s Hn H. cbn [scan_once] in H.
    destruct s as [| c r]; [discriminate H |]. cbn [length] in Hn.
    destruct (c =? 34)%N.
    { fuel_cases H IHs. }
    destruct (c =? 123)%N.
    { fuel_cases H IHs; first [discriminate H | revert H; apply IHo; cbn [length] in *; lia]. }
    destruct (c =? 91)%N.
    { fuel_cases H IHs; first [discriminate H | revert H; apply IHa; cbn [length] in *; lia]. }
    repeat match type of H with
           | context [word ?w ?x ?t] =>
               let E := fresh "E" in
               destruct (word w x t) eqn:E;
               [destruct (word_scanned _ _ _ E) as (? & ->); discriminate H |]
           end.
    exact (scan_number_fuel _ _ H).
  - intros depth d s Hn H. cbn [parse_object] in H.
    fuel_cases H IHs; first [discriminate H | revert H; apply IHo; cbn [length] in *; lia].
  - intros depth acc s Hn H. cbn [parse_array] in H.
    fuel_cases H IHs; first [discriminate H | revert H; apply IHa; cbn [length] in *; lia].
Qed.

(** ** The limits of the interpreter *)

Lemma scanstring_raised : forall (s begin acc : str) (e : exn),
  scanstring begin acc s <> Raised e.
Proof.
  intros s. remember (length s) as n eqn:Hn. assert (length s <= n) as Hle by lia.
  clear Hn. revert s Hle.
  induction n as [| n IH]; intros s Hn begin acc e H.
  - destruct s; [discriminate H | cbn in Hn; lia].
  - destruct s as [| c r]; [discriminate H |]. cbn [scanstring] in H.
    repeat match type of H with
           | _ => progress cbv beta iota in H
           | context [match ?t with _ => _ end] => destruct t; try discriminate H
           end;
      cbn [length] in *; revert H; apply IH; cbn [length]; lia.
Qed.

Lemma recursion_error_is_limit (D : nat) (what : str) :
  what = u "object" \/ what = u "array" -> limit_error D (recursion_error what).
Proof. intros [-> | ->]; [left | right; left]; reflexivity. Qed.

Lemma no_limit_on_digits (lexeme : str) : too_many_digits 0 lexeme = false.
Proof.
  unfold too_many_digits. replace (0 <? 0) with false by reflexivity.
  now rewrite andb_false_r.
Qed.

(** A number is scanned under a limit as without one, unless it has too many
    digits. *)
Lemma scan_number_limit (D : nat) (s : str) :
  scan_number D s = scan_number 0 s
  \/ exists e, scan_number D s = Raised e /\ limit_error D e.
Proof.
  unfold scan_number. destruct (match_number s) as [[[i fe] r] |]; [| now left].
  destruct fe; [| now left]. rewrite no_limit_on_digits.
  destruct (too_many_digits D i) eqn:T; [| now left].
  right. eexists. split; [reflexivity |]. right. right.
  exists (count_digits i). split; [| reflexivity].
  unfold too_many_digits in T. apply andb_true_iff in T as (_ & T).
  now apply Nat.ltb_lt in T.
Qed.

(** Under the limits the scanner does what it does without them, or gives up
    for one of them. *)
Lemma limits_or_same (D n : nat) :
  (forall d d' s, n <= d' ->
     scan_once D n d s = scan_once 0 n d' s
     \/ exists e, scan_once D n d s = Raised e /\ limit_error D e)
  /\ (forall d d' o s, n <= d' ->
        parse_object D n d o s = parse_object 0 n d' o s
        \/ exists e, parse_object D n d o s = Raised e /\ limit_error D e)
  /\ (forall d d' acc s, n <= d' ->
        parse_array D n d acc s = parse_array 0 n d' acc s
        \/ exists e, parse_array D n d acc s = Raised e /\ limit_error D e).
Proof.
  induction n as [| n (IHs & IHo & IHa)]; [repeat split; intros; now left |].
  repeat split.
  - intros d d' s Hd. destruct d' as [| d']; [lia |]. cbn [scan_once].
    destruct s as [| c r]; [now left |].
    destruct (c =? 34)%N; [now left |].
    destruct (c =? 123)%N.
    { destruct d as [| d].
      - right. eexists. split; [reflexivity |]. apply recursion_error_is_limit. now left.
      - cbv zeta. destruct (skip_ws r) as [| c1 r2]; [apply IHo; lia |].
        destruct (c1 =? 125)%N; [now left | apply IHo; lia]. }
    destruct (c =? 91)%N.
    { destruct d as [| d].
      - right. eexists. split; [reflexivity |]. apply recursion_error_is_limit. now right.
      - cbv zeta. destruct (skip_ws r) as [| c1 r2]; [apply IHa; lia |].
        destruct (c1 =? 93)%N; [now left | apply IHa; lia]. }
    repeat match goal with
           | |- context [word ?w ?x ?t] => destruct (word w x t); [now left |]
           end.
    apply scan_number_limit.
  - intros d d' o s Hd. cbn [parse_object].
    destruct s as [| c r]; [now left |].
    destruct (negb (c =? 34)%N); [now left |].
    destruct (scanstring (c :: r) [] r) as [key r1 | | |]; try now left.
    cbv zeta. destruct (skip_ws r1) as [| c1 r3]; [now left |].
    destruct (negb (c1 =? 58)%N); [now left |].
    destruct (IHs d d' (skip_ws r3)) as [-> | (e & -> & He)]; [lia | | right; eauto].
    destruct (scan_once 0 n d' (skip_ws r3)) as [v r4 | | |]; try now left.
    destruct (skip_ws r4) as [| c' r6]; [now left |].
    destruct (c' =? 125)%N; [now left |].
    destruct (c' =? 44)%N; [apply IHo; lia | now left].
  - intros d d' acc s Hd. cbn [parse_array].
    destruct (IHs d d' s) as [-> | (e & -> & He)]; [lia | | right; eauto].
    destruct (scan_once 0 n d' s) as [v r1 | | |]; try now left.
    cbv zeta. destruct (skip_ws r1) as [| c r3]; [now left |].
    destruct (c =? 93)%N; [now left |].
    destruct (c =? 44)%N; [apply IHa; lia | now left].
Qed.

Lemma scan_number_unlimited (s : str) (e : exn) : scan_number 0 s <> Raised e.
Proof.
  unfold scan_number. destruct (match_number s) as [[[i fe] r] |]; [| discriminate].
  destruct fe; [| discriminate]. rewrite no_limit_on_digits. discriminate.
Qed.

Ltac raised_cases H IHs :=
  repeat match type of H with
         | _ => progress cbv beta iota zeta in H
         | context [scanstring ?b ?a ?t] =>
             let E := fresh "E" in
             destruct (scanstring b a t) eqn:E;
             [ | | | exfalso; exact (scanstring_raised _ _ _ E) ];
             try discriminate H
         | context [match scan_once ?D ?n ?d ?t with _ => _ end] =>
             let E := fresh "E" in
             destruct (scan_once D n d t) eqn:E;
             [ | | | exfalso; revert E; apply IHs; lia ];
             try discriminate H
         | context [match ?t with _ => _ end] => destruct t eqn:?; try discriminate H
         end.

(** Without a limit on the digits and with a depth the fuel cannot use up,
    the scanner raises nothing. *)
Lemma unlimited_never_raised (n : nat) :
  (forall depth s e, n <= depth -> scan_once 0 n depth s <> Raised e)
  /\ (forall depth d s e, n <= depth -> parse_object 0 n depth d s <> Raised e)
  /\ (forall depth acc s e, n <= depth -> parse_array 0 n depth acc s <> Raised e).
Proof.
  induction n as [| n (IHs & IHo & IHa)]; [repeat split; intros; discriminate |].
  repeat split.
  - intros depth s e Hd H. cbn [scan_once] in H.
    destruct depth as [| depth]; [lia |].
    destruct s as [| c r]; [discriminate H |].
    destruct (c =? 34)%N.
    { raised_cases H IHs. }
    destruct (c =? 123)%N.
    { raised_cases H IHs; first [discriminate H | revert H; apply IHo; lia]. }
    destruct (c =? 91)%N.
    { raised_cases H IHs; first [discriminate H | revert H; apply IHa; lia]. }
    repeat match type of H with
           | context [word ?w ?x ?t] =>
               let E := fresh "E" in
               destruct (word w x t) eqn:E;
               [destruct (word_scanned _ _ _ E) as (? & ->); discriminate H |]
           end.
    exact (scan_number_unlimited _ H).
  - intros depth d s e Hd H. cbn [parse_object] in H.
    raised_cases H IHs; first [discriminate H | revert H; apply IHo; lia].
  - intros depth acc s e Hd H. cbn [parse_array] in H.
    raised_cases H IHs; first [discriminate H | revert H; apply IHa; lia].
Qed.

(** The grammar alone rejects a text with a [JSONDecodeError]. *)
Lemma json_decode_raises (s : str) (e : exn) :
  json_decode s = Raise e -> exn_kind e = JSONDecodeError.
Proof.
  unfold json_decode, Json.json_loads. destruct (startswith [65279%N] s).
  - intros H. injection H as <-. reflexivity.
  - destruct (scan_once 0 (2 * length s + 1) (2 * length s + 1) (skip_ws s))
      as [v rest | msg a | | e'] eqn:E.
    + destruct (skip_ws rest); [discriminate |]. intros H. injection H as <-. reflexivity.
    + intros H. injection H as <-. reflexivity.
    + exfalso. revert E. apply (proj1 (fuel_enough _ _)).
      pose proof (skip_ws_le s). lia.
    + exfalso. revert E. apply (proj1 (unlimited_never_raised _)). apply le_n.
Qed.

(** [json.loads] decodes a text as the grammar alone does, or gives up for a
    limit of the interpreter. *)
Lemma json_loads_limits (s : str) :
  json_loads s = json_decode s
  \/ exists e, json_loads s = Raise e /\ limit_error int_max_str_digits e.
Proof.
  unfold json_decode, Json.json_loads. destruct (startswith [65279%N] s); [now left |].
  destruct (proj1 (limits_or_same int_max_str_digits (2 * length s + 1))
              recursion_limit (2 * length s + 1) (skip_ws s) (le_n _))
    as [-> | (e & -> & He)]; [now left | right; eauto].
Qed.

Lemma limit_error_kind (D : nat) (e : exn) : limit_error D e -> exn_kind e = OtherException.
Proof. intros [-> | [-> | (n & _ & ->)]]; reflexivity. Qed.

(** What [json.loads] raises: the error of the grammar, or one of the
    limits. *)
Lemma json_loads_raises (s : str) (e : exn) :
  json_loads s = Raise e ->
  (exn_kind e = JSONDecodeError /\ json_decode s = Raise e)
  \/ limit_error int_max_str_digits e.
Proof.
  intros H. destruct (json_loads_limits s) as [E | (e' & E & He)].
  - left. rewrite E in H. split; [exact (json_decode_raises _ H) | exact H].
  - right. rewrite E in H. injection H as <-. exact He.
Qed.

(** ** The stages of [generate_curriculum] *)

Lemma try_body_stages (self : Generator) (headers : list (str * str)) (data : pyval)
  (student_name : option str) (grade_level : Z) (w : World) :
  try_body self headers data student_name grade_level w
  = let req := mkRequest (api_url self) headers data in
    match net w req with
    | Raise e => (Raise e, posted w req)
    | Ok response =>
        match reply_text response with
        | Raise e => (Raise e, posted w req)
        | Ok text =>
            match method_replace text (u "```json") [] with
            | Raise e => (Raise e, posted w req)
            | Ok replaced =>
                match json_loads (strip (replace replaced (u "```") [])) with
                | Raise e => (Raise e, posted w req)
                | Ok curriculum_data =>
                    render curriculum_data student_name grade_level (posted w req)
                end
            end
        end
    end.
Proof.
  unfold try_body, bind, requests_post, posted, lift. cbv zeta.
  destruct (net w _) as [response | e]; [| reflexivity].
  unfold reply_text, bind_result.
  destruct (raise_for_status response); [| reflexivity].
  destruct (body_json response) as [result | e]; [| reflexivity].
  destruct (getitem result _) as [content | e]; [| reflexivity].
  destruct (getitem_index content 0) as [first | e]; [| reflexivity].
  destruct (getitem first _) as [text | e]; [| reflexivity].
  destruct (method_replace text _ _) as [replaced | e]; [| reflexivity].
  destruct (json_loads _) as [v | e]; [| reflexivity].
  unfold render, format_curriculum_display, format_curriculum_text, bind, lift, datetime_now.
  fold (today (mkWorld (net w) (sent w ++ [mkRequest (api_url self) headers data]) (clock w) (ticks w))).
  destruct (display_on _ v student_name grade_level); [| reflexivity].
  destruct (text_on _ v student_name grade_level); reflexivity.
Qed.

Lemma past_the_guards (self : Generator) (student_name : option str) (grade_level : Z)
  (selected_subjects : option (list str)) (learning_style : str)
  (weeks_per_year days_per_week : Z) (goals : option str) (w : World) :
  (exists s l, selected_subjects = Some (s :: l)) ->
  api_key self <> [] ->
  generate_curriculum self student_name grade_level selected_subjects learning_style
    weeks_per_year days_per_week goals w
  = match try_body self (headers self)
            (data (prompt student_name grade_level
                     (join (u ", ") (or_else selected_subjects [])) learning_style
                     weeks_per_year days_per_week goals))
            student_name grade_level w with
    | (Ok r, w') => (r, w')
    | (Raise e, w') => (handler e, w')
    end.
Proof.
  intros H K. unfold generate_curriculum. rewrite (some_subjects_truthy H).
  destruct (api_key self); [congruence | reflexivity].
Qed.

(** A call that reaches the model and gets a text back: what it returns is
    decided by the decoding of the cleaned text, then by the renderers. *)
Lemma generate_curriculum_on_text (self : Generator) (student_name : option str)
  (grade_level : Z) (selected_subjects : option (list str)) (learning_style : str)
  (weeks_per_year days_per_week : Z) (goals : option str) (w : World)
  (response : Response) (text : str) :
  let req := the_request self student_name grade_level selected_subjects learning_style
               weeks_per_year days_per_week goals in
  (exists s l, selected_subjects = Some (s :: l)) ->
  api_key self <> [] ->
  net w req = Ok response ->
  reply_text response = Ok (PStr text) ->
  generate_curriculum self student_name grade_level selected_subjects learning_style
    weeks_per_year days_per_week goals w
  = match json_loads (clean_up text) with
    | Raise e => (handler e, posted w req)
    | Ok curriculum_data =>
        match render curriculum_data student_name grade_level (posted w req) with
        | (Ok r, w') => (r, w')
        | (Raise e, w') => (handler e, w')
        end
    end.
Proof.
  intros req H K Hnet Htext. rewrite (past_the_guards _ _ _ _ _ _ _ w H K).
  rewrite try_body_stages. cbv zeta. fold req. unfold the_request in req.
  subst req. rewrite Hnet, Htext. cbn [method_replace]. fold (clean_up text).
  destruct (json_loads (clean_up text)); reflexivity.
Qed.

(** ** The response is cleaned, then decoded *)


(** ** Every fence goes, the ones inside the document too *)

Lemma startswith_snoc (c : N) (p : str) : forall s : str,
  ~ In c p -> p <> [] -> startswith p (s ++ [c]) = startswith p s.
Proof.
  induction p as [| x p IH]; intros s Hc Hp; [congruence |].
  assert (x <> c) as Hx by (intros ->; apply Hc; now left).
  assert (~ In c p) as Hc' by (intros H; apply Hc; now right).
  destruct s as [| y s]; cbn [app startswith].
  - destruct (N.eqb_spec x c); [congruence | reflexivity].
  - destruct p as [| x' p]; [reflexivity |]. now rewrite IH.
Qed.

(** A last character foreign to [old] stays where it is. *)
Lemma replace_from_snoc (o : N) (old new : str) (c : N) (n : nat) : forall s : str,
  ~ In c (o :: old) -> length s <= n ->
  replace_from (o :: old) new 0 (s ++ [c]) = replace_from (o :: old) new 0 s ++ [c].
Proof.
  induction n as [| n IH]; intros s Hc Hn.
  - destruct s; [| cbn in Hn; lia]. cbn [app replace_from startswith].
    destruct (N.eqb_spec o c) as [-> |]; [exfalso; apply Hc; now left | reflexivity].
  - destruct s as [| y r]; [apply (IH [] Hc); cbn; lia |].
    destruct (startswith (o :: old) (y :: r)) eqn:E.
    + apply startswith_iff in E as (r' & E). rewrite E, <- app_assoc, !replace_from_here.
      rewrite IH; [now rewrite app_assoc | exact Hc |].
      rewrite E in Hn. cbn [app length] in Hn. rewrite length_app in Hn. lia.
    + rewrite <- app_comm_cons. rewrite !replace_from_keep; try exact E.
      * rewrite IH; [reflexivity | exact Hc | cbn in Hn; lia].
      * rewrite app_comm_cons, startswith_snoc; [exact E | exact Hc | discriminate].
Qed.

Lemma forallb_replace_from (P : N -> bool) (old : str) : forall (s : str) (k : nat),
  forallb P s = true -> forallb P (replace_from old [] k s) = true.
Proof.
  induction s as [| c s IH]; intros k H; [reflexivity |].
  cbn [forallb] in H. apply andb_true_iff in H as (Hc & Hs).
  cbn [replace_from]. destruct k; [| now apply IH].
  destruct (startswith old (c :: s)); [now apply IH |].
  cbn [forallb]. now rewrite Hc, IH.
Qed.

Lemma scanstring_plain (begin rest : str) : forall (x acc : str),
  json_plain x = true ->
  scanstring begin acc (x ++ 34%N :: rest) = Scanned (rev acc ++ x) rest.
Proof.
  induction x as [| c x IH]; intros acc H.
  - cbn [app scanstring N.eqb Pos.eqb]. now rewrite app_nil_r.
  - unfold json_plain in H. cbn [forallb] in H.
    apply andb_true_iff in H as (Hc & Hx).
    apply andb_true_iff in Hc as (Hc & H92). apply andb_true_iff in Hc as (H32 & H34).
    apply negb_true_iff in H92, H34. apply N.leb_le in H32.
    cbn [app scanstring]. rewrite H34, H92.
    destruct (N.leb_spec c 31); [lia |].
    rewrite (IH (c :: acc) Hx). cbn [rev]. now rewrite <- app_assoc.
Qed.

(** A quoted plain text decodes to itself. *)
Lemma json_loads_quoted (x : str) : json_plain x = true -> json_loads (q x) = Ok (PStr x).
Proof.
  intros H. unfold json_loads, q, dq. rewrite Nat.add_1_r.
  cbn [app startswith skip_ws is_ws N.eqb Pos.eqb andb orb scan_once].
  rewrite (scanstring_plain _ [] x [] H). reflexivity.
Qed.

Lemma rstrip_snoc (s : str) (c : N) : isspace c = false -> rstrip (s ++ [c]) = s ++ [c].
Proof.
  intros H. unfold rstrip. rewrite rev_app_distr. cbn [rev app lstrip]. rewrite H.
  cbn [rev]. now rewrite rev_involutive.
Qed.

Lemma clean_up_quoted (x : str) :
  clean_up (q x) = q (replace (replace x (u "```json") []) (u "```") []).
Proof.
  clear float_repr str_repr.
  unfold clean_up, replace, q, dq. rewrite u_fence_json, u_fence.
  cbn [app]. rewrite replace_from_keep by reflexivity.
  rewrite (@replace_from_snoc _ _ _ 34%N (length x));
    [| cbn; intuition discriminate | apply le_n].
  rewrite replace_from_keep by reflexivity.
  rewrite (@replace_from_snoc _ _ _ 34%N
             (length (replace_from [96; 96; 96; 106; 115; 111; 110]%N [] 0 x)));
    [| cbn; intuition discriminate | apply le_n].
  unfold strip. cbn [lstrip]. change (isspace 34) with false. cbv iota.
  rewrite app_comm_cons. now apply rstrip_snoc.
Qed.


(** ** All or nothing *)

Lemma grow_app (a : nat) (x t : str) : a <= length x -> a <= length (x ++ t).
Proof. rewrite length_app. lia. Qed.

Lemma grow_fold {A : Type} (f : str -> A -> str) (l : list A) :
  (forall o x, length o <= length (f o x)) ->
  forall (a : nat) (output : str), a <= length output -> a <= length (fold_left f l output).
Proof.
  intros Hf. induction l as [| x l IH]; intros a output H; [exact H |].
  cbn [fold_left]. apply IH. specialize (Hf output x). lia.
Qed.

Lemma grow_numbered (a : nat) (items : list pyval) (output : str) :
  a <= length output -> a <= length (numbered items output).
Proof. apply grow_fold. intros o x. now apply grow_app. Qed.

Lemma grow_bulleted (a : nat) (items : list pyval) (output : str) :
  a <= length output -> a <= length (bulleted items output).
Proof. apply grow_fold. intros o x. now apply grow_app. Qed.

Lemma grow_for_each {A : Type} (body : str -> A -> result str) (l : list A) :
  (forall o x r, body o x = Ok r -> length o <= length r) ->
  forall (a : nat) (output r : str),
  a <= length output -> for_each l body output = Ok r -> a <= length r.
Proof.
  intros Hb. induction l as [| x l IH]; intros a output r Ha H.
  - injection H as <-. exact Ha.
  - cbn [for_each] in H. destruct (body output x) as [o' |] eqn:E; [| discriminate H].
    apply (IH a o' r); [| exact H]. apply Hb in E. lia.
Qed.

(** Splits the steps of a renderer that may raise. *)
Ltac steps H :=
  repeat match type of H with
         | context [bind_result ?c _] => destruct c; cbn [bind_result] in H; try discriminate H
         end.

Ltac grow :=
  repeat first [ apply grow_app | apply grow_numbered | apply grow_bulleted ]; try apply le_n.

Lemma grow_display_subject (o : str) (v : pyval) (r : str) :
  display_subject o v = Ok r -> length o <= length r.
Proof. unfold display_subject. intros H. steps H. injection H as <-. grow. Qed.

Lemma grow_display_period (o : str) (v : pyval) (r : str) :
  display_period o v = Ok r -> length o <= length r.
Proof. unfold display_period. intros H. steps H. injection H as <-. grow. Qed.

Lemma grow_display_day (o : str) (v : pyval) (r : str) :
  display_day o v = Ok r -> length o <= length r.
Proof.
  unfold display_day. intros H.
  destruct (getitem v (u "day")); cbn [bind_result] in H; [| discriminate H].
  destruct (getitem v (u "periods")); cbn [bind_result] in H; [| discriminate H].
  destruct (iterate _); cbn [bind_result] in H; [| discriminate H].
  destruct (for_each _ _ _) eqn:E; cbn [bind_result] in H; [| discriminate H].
  injection H as <-. apply grow_app.
  eapply grow_for_each; [exact grow_display_period | | exact E]. grow.
Qed.

Lemma display_on_nonempty (date : str) (v : pyval) (student_name : option str)
  (grade_level : Z) (r : str) :
  display_on date v student_name grade_level = Ok r -> r <> [].
Proof.
  unfold display_on. intros H.
  destruct (getitem v (u "overview")); cbn [bind_result] in H; [| discriminate H].
  destruct (getitem v (u "subjects")); cbn [bind_result] in H; [| discriminate H].
  destruct (iterate _); cbn [bind_result] in H; [| discriminate H].
  destruct (for_each _ display_subject _) as [o |] eqn:E; cbn [bind_result] in H;
    [| discriminate H].
  destruct (getitem v (u "weeklySchedule")); cbn [bind_result] in H; [| discriminate H].
  destruct (iterate _); cbn [bind_result] in H; [| discriminate H].
  assert (1 <= length r) as K; [| destruct r; [cbn in K; lia | discriminate]].
  eapply grow_for_each; [exact grow_display_day | | exact H].
  apply grow_app.
  eapply grow_for_each; [exact grow_display_subject | | exact E].
  rewrite length_app. cbn. lia.
Qed.

Lemma handler_fails (e : exn) :
  snd (handler e) = None /\ failure_message (fst (handler e)) /\ fst (handler e) <> [].
Proof.
  unfold handler, failure_message. destruct (exn_kind e); cbn [fst snd];
    (split; [reflexivity |]); (split; [| discriminate]).
  - right; right; left. eauto.
  - right; right; right; left. eauto.
  - right; right; right; right. eauto.
Qed.

(** C6. A call returns a message that is never empty, together with either
    nothing, the message then being one of the five failure messages, or the
    download text, the call then having gone through every stage: the
    response carried a text, the cleaned text decoded to a document, and both
    renderers succeeded on that one document, the message being the display
    rendering and the download text the plain rendering.  Conversely, a call
    that passes the guards and whose stages all succeed returns the two
    renderings: the download text is there exactly when the call
    succeeds. *)
Theorem message_always_text_only_on_success (self : Generator)
  (student_name : option str) (grade_level : Z) (selected_subjects : option (list str))
  (learning_style : str) (weeks_per_year days_per_week : Z) (goals : option str)
  (w : World) :
  let req := the_request self student_name grade_level selected_subjects learning_style
               weeks_per_year days_per_week goals in
  let call := generate_curriculum self student_name grade_level selected_subjects
                learning_style weeks_per_year days_per_week goals w in
  fst (fst call) <> []
  /\ ((snd (fst call) = None /\ failure_message (fst (fst call)))
      \/ (exists response text curriculum display download,
            net w req = Ok response
            /\ reply_text response = Ok (PStr text)
            /\ json_loads (clean_up text) = Ok curriculum
            /\ format_curriculum_display curriculum student_name grade_level (posted w req)
               = (Ok display, tick (posted w req))
            /\ format_curriculum_text curriculum student_name grade_level
                 (tick (posted w req))
               = (Ok download, snd call)
            /\ fst call = (display, Some download)))
  /\ (forall response text curriculum display download,
        (exists s l, selected_subjects = Some (s :: l)) ->
        api_key self <> [] ->
        net w req = Ok response ->
        reply_text response = Ok (PStr text) ->
        json_loads (clean_up text) = Ok curriculum ->
        format_curriculum_display curriculum student_name grade_level (posted w req)
        = (Ok display, tick (posted w req)) ->
        format_curriculum_text curriculum student_name grade_level (tick (posted w req))
        = (Ok download, tick (tick (posted w req))) ->
        call = ((display, Some download), tick (tick (posted w req)))).
Proof.
  intros req call. apply and_assoc. split.
  2: { intros response text curriculum display download H K Hnet Htext Hload Hd Ht.
       subst call.
       rewrite (@generate_curriculum_on_text self student_name grade_level
                  selected_subjects learning_style weeks_per_year days_per_week goals w
                  response text H K Hnet Htext).
       fold req. rewrite Hload. unfold render.
       rewrite format_curriculum_display_eq in Hd. injection Hd as Hd.
       rewrite format_curriculum_text_eq in Ht. injection Ht as Ht.
       rewrite Hd, Ht. reflexivity. }
  assert (forall e w', call = (handler e, w') ->
          fst (fst call) <> []
          /\ (snd (fst call) = None /\ failure_message (fst (fst call))
              \/ (exists response text curriculum display download,
                    net w req = Ok response
                    /\ reply_text response = Ok (PStr text)
                    /\ json_loads (clean_up text) = Ok curriculum
                    /\ format_curriculum_display curriculum student_name grade_level
                         (posted w req) = (Ok display, tick (posted w req))
                    /\ format_curriculum_text curriculum student_name grade_level
                         (tick (posted w req)) = (Ok download, snd call)
                    /\ fst call = (display, Some download)))) as Hfail.
  { intros e w' ->. destruct (handler_fails e) as (A & B & C). cbn [fst snd]. auto. }
  destruct selected_subjects as [[| s l] |].
  - split; [discriminate |]. left. split; [reflexivity |]. now left.
  - destruct (api_key self) as [| k key] eqn:K.
    + subst call. unfold generate_curriculum. rewrite K.
      split; [discriminate |]. left. split; [reflexivity |]. right. now left.
    + assert (call = match try_body self (headers self) (req_json req) student_name
                             grade_level w with
                     | (Ok r, w') => (r, w')
                     | (Raise e, w') => (handler e, w')
                     end) as E.
      { apply past_the_guards; [eauto | rewrite K; discriminate]. }
      rewrite try_body_stages in E. cbv zeta in E.
      change (mkRequest (api_url self) (headers self) (req_json req)) with req in E.
      destruct (net w req) as [response |] eqn:Hnet; [| now apply Hfail in E].
      destruct (reply_text response) as [text |] eqn:Htext; [| now apply Hfail in E].
      destruct text as [| | | | text | |];
        cbn [method_replace] in E; try now apply Hfail in E.
      fold (clean_up text) in E.
      destruct (json_loads (clean_up text)) as [curriculum |] eqn:Hload;
        [| now apply Hfail in E].
      unfold render in E.
      destruct (display_on _ curriculum _ _) as [display |] eqn:Hd; [| now apply Hfail in E].
      destruct (text_on _ curriculum _ _) as [download |] eqn:Ht; [| now apply Hfail in E].
      rewrite E. cbn [fst snd]. split; [exact (display_on_nonempty _ _ _ _ Hd) |].
      right. exists response, text, curriculum, display, download.
      rewrite format_curriculum_display_eq, format_curriculum_text_eq, Hd, Ht.
      repeat split; try reflexivity; assumption.
  - split; [discriminate |]. left. split; [reflexivity |]. now left.
Qed.

(** ** The prompt *)

(** A call that passes the guards sends one request, the one built from its
    arguments. *)
Lemma request_sent (self : Generator) (student_name : option str) (grade_level : Z)
  (selected_subjects : option (list str)) (learning_style : str)
  (weeks_per_year days_per_week : Z) (goals : option str) (w : World) :
  (exists s l, selected_subjects = Some (s :: l)) ->
  api_key self <> [] ->
  sent (snd (generate_curriculum self student_name grade_level selected_subjects
               learning_style weeks_per_year days_per_week goals w))
  = sent w ++ [the_request self student_name grade_level selected_subjects learning_style
                 weeks_per_year days_per_week goals].
Proof.
  intros H K. rewrite past_the_guards by assumption. rewrite try_body_stages. cbv zeta.
  fold (the_request self student_name grade_level selected_subjects learning_style
          weeks_per_year days_per_week goals).
  unfold render.
  repeat match goal with
         | |- context [match ?t with _ => _ end] =>
             lazymatch t with
             | context [match _ with _ => _ end] => fail
             | _ => destruct t
             end
         end; reflexivity.
Qed.

(** C8. A call that passes the guards sends the prompt built from the
    subjects joined with a comma and a space.  The prompt opens with the
    grade, its suffix and the name, the placeholder standing for an absent or
    empty name; then come the lines of the subjects, of the learning style
    and of the year; then the line of the goals, which is the text of the
    goals after its label when there are goals and is empty otherwise; then a
    text that does not depend on the goals. *)
Theorem prompt_construction (self : Generator) (student_name : option str)
  (grade_level : Z) (subjects : list str) (learning_style : str)
  (weeks_per_year days_per_week : Z) (goals : option str) (w : World) :
  let subjects_str := join (u ", ") subjects in
  subjects <> [] ->
  api_key self <> [] ->
  sent (snd (generate_curriculum self student_name grade_level (Some subjects)
               learning_style weeks_per_year days_per_week goals w))
  = sent w ++ [mkRequest (api_url self) (headers self)
                 (data (prompt student_name grade_level subjects_str learning_style
                          weeks_per_year days_per_week goals))]
  /\ (exists tail,
        startswith (nl ++ nl ++ u "Please provide:" ++ nl) tail = true
        /\ forall goals',
             prompt student_name grade_level subjects_str learning_style
               weeks_per_year days_per_week goals'
             = u "Create a detailed homeschool curriculum plan for a "
               ++ str_int grade_level ++ get_grade_suffix grade_level
               ++ u " grade student named " ++ or_else student_name (u "Student")
               ++ u "." ++ nl
               ++ nl
               ++ u "Subjects to cover: " ++ subjects_str ++ nl
               ++ u "Learning style: " ++ learning_style ++ nl
               ++ u "Academic year: " ++ str_int weeks_per_year ++ u " weeks, "
               ++ str_int days_per_week ++ u " days per week" ++ nl
               ++ goals_line goals' ++ tail)
  /\ (goals_line goals = [] <-> goals = None \/ goals = Some [])
  /\ (forall g, goals = Some g -> g <> [] -> goals_line goals = u "Learning goals: " ++ g)
  /\ (student_name = None \/ student_name = Some [] ->
      prompt student_name grade_level subjects_str learning_style
        weeks_per_year days_per_week goals
      = prompt (Some (u "Student")) grade_level subjects_str learning_style
          weeks_per_year days_per_week goals).
Proof.
  intros subjects_str Hs K. repeat split.
  - destruct subjects as [| s l]; [congruence |].
    rewrite request_sent; [reflexivity | eauto | exact K].
  - eexists. split.
    2:{ intros goals'. unfold prompt. rewrite <- ?app_assoc.
        do 20 f_equal.
        instantiate (1 := nl ++ nl ++ u "Please provide:" ++ nl ++ _).
        destruct goals' as [[| c g] |]; cbn [truthy or_else goals_line];
          rewrite <- ?app_assoc; reflexivity. }
    apply startswith_iff. eexists. rewrite <- ?app_assoc. reflexivity.
  - destruct goals as [[| c g] |]; cbn [goals_line]; intros H;
      [now right | discriminate H | now left].
  - intros [-> | ->]; reflexivity.
  - intros g -> Hg. destruct g; [congruence | reflexivity].
  - intros H.
    assert (or_else student_name (u "Student")
            = or_else (Some (u "Student")) (u "Student")) as E
      by (destruct H as [-> | ->]; reflexivity).
    unfold prompt. now rewrite E.
Qed.

(** ** Every record has a document *)

Lemma Forall2_map_encode {A : Type} (shape : pyval -> A -> Prop) (enc : A -> pyval) :
  (forall x, shape (enc x) x) -> forall l, Forall2 shape (map enc l) l.
Proof. intros H. induction l; constructor; auto. Qed.

Lemma encode_is_record (r : CurriculumRecord) : is_record (encode r) r.
Proof.
  split; [reflexivity |]. split.
  - eexists. split; [reflexivity |]. apply Forall2_map_encode.
    intros s. repeat split; reflexivity.
  - eexists. split; [reflexivity |]. apply Forall2_map_encode.
    intros d. split; [reflexivity |]. eexists. split; [reflexivity |].
    apply Forall2_map_encode. intros p. repeat split; reflexivity.
Qed.

(** * More properties of the code *)

(** ** The form: the subjects that reach the generator *)

Lemma selected_last_ticked
  (math reading science social_studies art music pe language : bool) :
  selected_of (subject_map math reading science social_studies art music pe language)
  = last_ticked [ (math, u "Math");
                  (reading, u "Reading/Language Arts");
                  (science, u "Science");
                  (social_studies, u "Social Studies");
                  (art, u "Art");
                  (music, u "Music");
                  (pe, u "Physical Education");
                  (language, u "Foreign Language") ].
Proof.
  destruct math, reading, science, social_studies, art, music, pe, language; reflexivity.
Qed.

(** X1. The keys of [subject_map] are the values of the checkboxes, so the
    dict holds at most two entries, and the subjects selected are, whatever
    is ticked, at most one: the label of the last ticked checkbox. *)
Theorem gradio_selects_last_ticked_only
  (math reading science social_studies art music pe language : bool) :
  selected_of (subject_map math reading science social_studies art music pe language)
  = last_ticked [ (math, u "Math");
                  (reading, u "Reading/Language Arts");
                  (science, u "Science");
                  (social_studies, u "Social Studies");
                  (art, u "Art");
                  (music, u "Music");
                  (pe, u "Physical Education");
                  (language, u "Foreign Language") ]
  /\ length (subject_map math reading science social_studies art music pe language) <= 2
  /\ length (selected_of
               (subject_map math reading science social_studies art music pe language)) <= 1.
Proof.
  split; [apply selected_last_ticked |].
  destruct math, reading, science, social_studies, art, music, pe, language;
    split; cbn; lia.
Qed.

(** X2. What the wrapper asks of the generator: with nothing ticked, the
    validation message and no request; otherwise, past the check of the key,
    one request whose prompt names a single subject, the last one ticked. *)
Theorem gradio_call_names_one_subject (generator : Generator) (student_name : option str)
  (grade_level : Z) (math reading science social_studies art music pe language : bool)
  (learning_style : str) (weeks days : Z) (goals : option str) (w : World) :
  let call := generate_curriculum_gradio generator student_name grade_level math reading
                science social_studies art music pe language learning_style weeks days
                goals w in
  api_key generator <> [] ->
  match last_ticked [ (math, u "Math");
                      (reading, u "Reading/Language Arts");
                      (science, u "Science");
                      (social_studies, u "Social Studies");
                      (art, u "Art");
                      (music, u "Music");
                      (pe, u "Physical Education");
                      (language, u "Foreign Language") ] with
  | [] => call = ((u "❌ Please select at least one subject", None), w)
  | label :: _ =>
      sent (snd call)
      = sent w ++ [mkRequest (api_url generator) (headers generator)
                     (data (prompt student_name grade_level label learning_style
                              weeks days goals))]
  end.
Proof.
  intros call K. subst call. unfold generate_curriculum_gradio.
  rewrite selected_last_ticked. unfold last_ticked.
  destruct (rev (filter fst _)) as [| [b label] rest].
  - reflexivity.
  - rewrite request_sent; [reflexivity | eauto | exact K].
Qed.

(** ** The key of the API *)

(** X4. A generator created in an environment without the variable
    ANTHROPIC_API_KEY has an empty key, and each of its calls with a subject
    selected returns the configuration message without a request; created in
    an environment where the variable is set, it has the value of the
    variable for key.  The address of the API is the same in both. *)
Theorem key_comes_from_environment (environ : list (str * str)) (student_name : option str)
  (grade_level : Z) (s : str) (l : list str) (learning_style : str)
  (weeks_per_year days_per_week : Z) (goals : option str) (w : World) :
  api_url (init environ) = u "https://api.anthropic.com/v1/messages"
  /\ ((forall value, ~ In (u "ANTHROPIC_API_KEY", value) environ) ->
      generate_curriculum (init environ) student_name grade_level (Some (s :: l))
        learning_style weeks_per_year days_per_week goals w
      = ((u "❌ API key not configured. Please add ANTHROPIC_API_KEY to Hugging Face Secrets.",
          None), w))
  /\ (forall before value after,
        environ = before ++ (u "ANTHROPIC_API_KEY", value) :: after ->
        (forall v, ~ In (u "ANTHROPIC_API_KEY", v) before) ->
        api_key (init environ) = value).
Proof.
  split; [reflexivity |]. split.
  - intros H.
    assert (api_key (init environ) = []) as K.
    { unfold init. cbn [api_key].
      destruct (find _ environ) as [[k v] |] eqn:E; [| reflexivity].
      apply find_some in E as (Hin & Hk). cbn [fst] in Hk.
      exfalso. apply (H v).
      assert (k = u "ANTHROPIC_API_KEY") as <-; [| exact Hin].
      clear - Hk. revert Hk. generalize (u "ANTHROPIC_API_KEY").
      induction k as [| c k IH]; intros [| c' k'] Hk; try discriminate Hk; [reflexivity |].
      cbn [str_eqb] in Hk. apply andb_true_iff in Hk as (Hc & Hk).
      apply N.eqb_eq in Hc. f_equal; [exact Hc | now apply IH]. }
    unfold generate_curriculum. rewrite K. reflexivity.
  - intros before value after -> Hb. unfold init. cbn [api_key].
    induction before as [| [k v] before IH]; [reflexivity |].
    cbn [app find fst].
    destruct (str_eqb k (u "ANTHROPIC_API_KEY")) eqn:E.
    + exfalso. apply (Hb v). left. f_equal.
      clear - E. revert E. generalize (u "ANTHROPIC_API_KEY").
      induction k as [| c k IH]; intros [| c' k'] Hk; try discriminate Hk; [reflexivity |].
      cbn [str_eqb] in Hk. apply andb_true_iff in Hk as (Hc & Hk).
      apply N.eqb_eq in Hc. f_equal; [exact Hc | now apply IH].
    + apply IH. intros v' Hv. apply (Hb v'). now right.
Qed.

(** X11. For the grades the form offers, 1 to 12, and for every grade from 0
    to 20, the suffix is the English one; 21 is the first grade for which it is
    not. *)
Theorem get_grade_suffix_english (g : Z) :
  (0 <= g <= 20)%Z ->
  get_grade_suffix g = english_suffix g
  /\ get_grade_suffix 21 <> english_suffix 21.
Proof.
  intros H. split; [| discriminate].
  assert (g = 0 \/ g = 1 \/ g = 2 \/ g = 3 \/ g = 4 \/ g = 5 \/ g = 6 \/ g = 7 \/ g = 8
          \/ g = 9 \/ g = 10 \/ g = 11 \/ g = 12 \/ g = 13 \/ g = 14 \/ g = 15 \/ g = 16
          \/ g = 17 \/ g = 18 \/ g = 19 \/ g = 20)%Z as K by lia.
  repeat (destruct K as [-> | K]; [reflexivity |]). now subst.
Qed.

(** ** The failures of a call, one by one *)

(** A call past the guards either fails before the renderers, the clock
    not read, or goes to the renderers with the decoded document. *)
Lemma call_stages (self : Generator) (student_name : option str) (grade_level : Z)
  (selected_subjects : option (list str)) (learning_style : str)
  (weeks_per_year days_per_week : Z) (goals : option str) (w : World) :
  let req := the_request self student_name grade_level selected_subjects learning_style
               weeks_per_year days_per_week goals in
  let call := generate_curriculum self student_name grade_level selected_subjects
                learning_style weeks_per_year days_per_week goals w in
  (exists s l, selected_subjects = Some (s :: l)) ->
  api_key self <> [] ->
  (exists e, call = (handler e, posted w req)
             /\ (net w req = Raise e
                 \/ (exists response, net w req = Ok response
                       /\ (reply_text response = Raise e
                           \/ (exists text, reply_text response = Ok text
                                 /\ method_replace text (u "```json") [] = Raise e)
                           \/ (exists text, reply_text response = Ok (PStr text)
                                 /\ json_loads (clean_up text) = Raise e)))))
  \/ (exists response text curriculum,
        net w req = Ok response
        /\ reply_text response = Ok (PStr text)
        /\ json_loads (clean_up text) = Ok curriculum
        /\ call = match render curriculum student_name grade_level (posted w req) with
                  | (Ok r, w') => (r, w')
                  | (Raise e, w') => (handler e, w')
                  end).
Proof.
  intros req call H K. subst call req. rewrite past_the_guards by assumption.
  rewrite try_body_stages. cbv zeta. unfold the_request.
  destruct (net w _) as [response | e] eqn:Hnet; [| left; eauto].
  destruct (reply_text response) as [text | e] eqn:Htext;
    [| left; exists e; split; [reflexivity |]; right; exists response; auto].
  destruct text as [| b | z | x | text | l | d]; cbn [method_replace];
    try (left; eexists; split; [reflexivity |]; right; exists response;
         split; [reflexivity |]; right; left;
         eexists; split; [exact Htext | reflexivity]).
  fold (clean_up text).
  destruct (json_loads (clean_up text)) as [curriculum | e] eqn:Hload.
  - right. exists response, text, curriculum. repeat split; try assumption; reflexivity.
  - left. exists e. split; [reflexivity |]. right. exists response.
    split; [reflexivity |]. right. right. eauto.
Qed.

(** X5. When the request fails, [requests.post] raising a request exception
    or the response carrying an error status, the call returns the message
    of a failed request with the text of the exception and no download
    text; the request was sent once and the clock was not read. *)
Theorem transport_failure_reported (self : Generator) (student_name : option str)
  (grade_level : Z) (selected_subjects : option (list str)) (learning_style : str)
  (weeks_per_year days_per_week : Z) (goals : option str) (w : World) (cause : str) :
  let req := the_request self student_name grade_level selected_subjects learning_style
               weeks_per_year days_per_week goals in
  (exists s l, selected_subjects = Some (s :: l)) ->
  api_key self <> [] ->
  net w req = Raise (mkExn RequestException cause)
  \/ (exists response, net w req = Ok response /\ http_error response = Some cause) ->
  generate_curriculum self student_name grade_level selected_subjects learning_style
    weeks_per_year days_per_week goals w
  = ((u "❌ API request failed: " ++ cause, None),
     mkWorld (net w) (sent w ++ [req]) (clock w) (ticks w)).
Proof.
  intros req H K Hfail. subst req. unfold the_request in *.
  rewrite past_the_guards by assumption.
  rewrite try_body_stages. cbv zeta.
  destruct Hfail as [-> | (response & -> & Herr)]; [reflexivity |].
  unfold reply_text, raise_for_status. rewrite Herr. reflexivity.
Qed.

(** Reduces a call that has raised to its message, and computes the
    message. *)
Ltac report :=
  cbv beta iota zeta delta [bind_result error not_subscriptable handler exn_kind exn_str
                            getitem getitem_index nth_error method_replace];
  apply (f_equal2 pair); [apply (f_equal2 pair); [vm_compute |] |]; reflexivity.

(** X6. When the answer of the API has not the shape the code indexes, the
    call returns the general error message and no download text: with the
    name of the key for a body without the key content, with the message of
    the list for an empty content, with the message of the missing method for
    a text that is not a string. *)
Theorem malformed_answer_reported (self : Generator) (student_name : option str)
  (grade_level : Z) (selected_subjects : option (list str)) (learning_style : str)
  (weeks_per_year days_per_week : Z) (goals : option str) (w : World)
  (response : Response) :
  let req := the_request self student_name grade_level selected_subjects learning_style
               weeks_per_year days_per_week goals in
  let call := generate_curriculum self student_name grade_level selected_subjects
                learning_style weeks_per_year days_per_week goals w in
  (exists s l, selected_subjects = Some (s :: l)) ->
  api_key self <> [] ->
  net w req = Ok response ->
  http_error response = None ->
  (forall d, body_json response = Ok (PDict d) -> dict_get d (u "content") = None ->
     call = ((u "❌ Error: 'content'", None), posted w req))
  /\ (forall d, body_json response = Ok (PDict d) ->
      dict_get d (u "content") = Some (PList []) ->
      call = ((u "❌ Error: list index out of range", None), posted w req))
  /\ (forall d item, body_json response = Ok (PDict d) ->
      dict_get d (u "content") = Some (PList [PDict item]) ->
      dict_get item (u "text") = Some PNone ->
      call = ((u "❌ Error: 'NoneType' object has no attribute 'replace'", None),
              posted w req)).
Proof.
  intros req call H K Hnet Herr. subst call req. unfold the_request in *.
  rewrite past_the_guards by assumption.
  rewrite try_body_stages. cbv zeta. rewrite Hnet.
  unfold reply_text, raise_for_status. rewrite Herr. cbn [bind_result].
  repeat split.
  - intros d -> Hd. cbn [bind_result getitem]. rewrite Hd. report.
  - intros d -> Hd. cbn [bind_result getitem]. rewrite Hd. report.
  - intros d item -> Hd Hi. cbn [bind_result getitem]. rewrite Hd.
    cbn [bind_result getitem_index nth_error getitem]. rewrite Hi. report.
Qed.

(** X7. A response that decodes to a JSON object without the key overview
    gives the general error message naming that key and no download text;
    the display renderer had read the clock once by then, the text renderer
    was not called. *)
Theorem missing_overview_reported (self : Generator) (student_name : option str)
  (grade_level : Z) (selected_subjects : option (list str)) (learning_style : str)
  (weeks_per_year days_per_week : Z) (goals : option str) (w : World)
  (response : Response) (text : str) (d : list (str * pyval)) :
  let req := the_request self student_name grade_level selected_subjects learning_style
               weeks_per_year days_per_week goals in
  (exists s l, selected_subjects = Some (s :: l)) ->
  api_key self <> [] ->
  net w req = Ok response ->
  reply_text response = Ok (PStr text) ->
  json_loads (clean_up text) = Ok (PDict d) ->
  dict_get d (u "overview") = None ->
  generate_curriculum self student_name grade_level selected_subjects learning_style
    weeks_per_year days_per_week goals w
  = ((u "❌ Error: 'overview'", None),
     mkWorld (net w) (sent w ++ [req]) (clock w) (S (ticks w))).
Proof.
  intros req H K Hnet Htext Hload Hd.
  rewrite (@generate_curriculum_on_text self student_name grade_level selected_subjects
             learning_style weeks_per_year days_per_week goals w response text H K Hnet
             Htext).
  fold req. rewrite Hload. unfold render, display_on. cbn [getitem]. rewrite Hd.
  report.
Qed.

(** X12. Whatever the arguments and the world, a call sends at most one
    request and reads the clock at most twice, and reads it only after it
    has sent the request; it leaves the network and the clock as they
    were. *)
Theorem one_request_two_readings (self : Generator) (student_name : option str)
  (grade_level : Z) (selected_subjects : option (list str)) (learning_style : str)
  (weeks_per_year days_per_week : Z) (goals : option str) (w : World) :
  let req := the_request self student_name grade_level selected_subjects learning_style
               weeks_per_year days_per_week goals in
  let w' := snd (generate_curriculum self student_name grade_level selected_subjects
                   learning_style weeks_per_year days_per_week goals w) in
  net w' = net w
  /\ clock w' = clock w
  /\ ((sent w' = sent w /\ ticks w' = ticks w)
      \/ (sent w' = sent w ++ [req] /\ ticks w <= ticks w' <= ticks w + 2)).
Proof.
  intros req w'. subst w'.
  destruct selected_subjects as [[| s l] |].
  - repeat split. now left.
  - destruct (api_key self) as [| k key] eqn:K.
    + unfold generate_curriculum. rewrite K. repeat split. now left.
    + destruct (@call_stages self student_name grade_level (Some (s :: l)) learning_style
                  weeks_per_year days_per_week goals w)
        as [(e & -> & _) | (response & text & curriculum & _ & _ & _ & ->)];
        [eauto | rewrite K; discriminate | |].
      * cbn [snd posted net clock sent ticks]. repeat split. right. split; [reflexivity | lia].
      * unfold render.
        destruct (display_on _ _ _ _); [destruct (text_on _ _ _ _) |];
          cbn [snd tick posted net clock sent ticks]; repeat split; right;
          (split; [reflexivity | lia]).
  - repeat split. now left.
Qed.

(** ** The two renderers on one document *)

Lemma for_each_alike {A : Type} (body1 body2 : str -> A -> result str) (l : list A) :
  (forall o1 o2 x, same_outcome (body1 o1 x) (body2 o2 x)) ->
  forall o1 o2, same_outcome (for_each l body1 o1) (for_each l body2 o2).
Proof.
  intros Hb. induction l as [| x l IH]; intros o1 o2; [exact I |].
  cbn [for_each]. specialize (Hb o1 o2 x).
  destruct (body1 o1 x), (body2 o2 x); cbn [same_outcome] in Hb;
    [apply IH | contradiction | contradiction | exact Hb].
Qed.

(** Goes through the lookups two renderers make in the same order. *)
Ltac alike :=
  repeat match goal with
         | |- same_outcome (bind_result ?c _) (bind_result ?c _) =>
             destruct c; cbn [bind_result]; [| reflexivity]
         end.

Lemma subjects_alike (o1 o2 : str) (v : pyval) :
  same_outcome (display_subject o1 v) (text_subject o2 v).
Proof. unfold display_subject, text_subject. cbv zeta. alike. exact I. Qed.

Lemma periods_alike (o1 o2 : str) (v : pyval) :
  same_outcome (display_period o1 v) (text_period o2 v).
Proof. unfold display_period, text_period. alike. exact I. Qed.

Lemma days_alike (o1 o2 : str) (v : pyval) :
  same_outcome (display_day o1 v) (text_day o2 v).
Proof.
  unfold display_day, text_day. cbv zeta. alike.
  match goal with
  | |- same_outcome (bind_result (for_each ?l _ ?a) _) (for_each ?l _ ?b) =>
      pose proof (for_each_alike display_period text_period l periods_alike a b) as H;
      destruct (for_each l display_period a), (for_each l text_period b)
  end; exact H.
Qed.

(** X8. The two renderers look up the same keys of the document in the same
    order: on one document, whatever the name, the grade and the date, both
    return or both raise the same exception. *)
Theorem renderers_fail_alike (curriculum : pyval) (name1 name2 : option str)
  (grade1 grade2 : Z) (w1 w2 : World) :
  same_outcome (fst (format_curriculum_display curriculum name1 grade1 w1))
    (fst (format_curriculum_text curriculum name2 grade2 w2)).
Proof.
  rewrite format_curriculum_display_eq, format_curriculum_text_eq. cbn [fst].
  unfold display_on, text_on. cbv zeta. alike.
  match goal with
  | |- same_outcome (bind_result (for_each ?l _ ?a) _) (bind_result (for_each ?l _ ?b) _) =>
      pose proof (for_each_alike display_subject text_subject l subjects_alike a b) as H;
      destruct (for_each l display_subject a), (for_each l text_subject b);
      cbn [same_outcome] in H; try contradiction; cbn [bind_result]; [| exact H]
  end.
  alike. apply for_each_alike. exact days_alike.
Qed.

(** ** The download text and the file *)

Lemma grow_text_subject (o : str) (v : pyval) (r : str) :
  text_subject o v = Ok r -> length o <= length r.
Proof. unfold text_subject. intros H. steps H. injection H as <-. grow. Qed.

Lemma grow_text_period (o : str) (v : pyval) (r : str) :
  text_period o v = Ok r -> length o <= length r.
Proof. unfold text_period. intros H. steps H. injection H as <-. grow. Qed.

Lemma grow_text_day (o : str) (v : pyval) (r : str) :
  text_day o v = Ok r -> length o <= length r.
Proof.
  unfold text_day. intros H.
  destruct (getitem v (u "day")); cbn [bind_result] in H; [| discriminate H].
  destruct (getitem v (u "periods")); cbn [bind_result] in H; [| discriminate H].
  destruct (iterate _); cbn [bind_result] in H; [| discriminate H].
  eapply grow_for_each; [exact grow_text_period | | exact H]. grow.
Qed.

Lemma text_on_nonempty (date : str) (v : pyval) (student_name : option str)
  (grade_level : Z) (r : str) :
  text_on date v student_name grade_level = Ok r -> r <> [].
Proof.
  unfold text_on. intros H.
  destruct (getitem v (u "overview")); cbn [bind_result] in H; [| discriminate H].
  destruct (getitem v (u "subjects")); cbn [bind_result] in H; [| discriminate H].
  destruct (iterate _); cbn [bind_result] in H; [| discriminate H].
  destruct (for_each _ text_subject _) as [o |] eqn:E; cbn [bind_result] in H;
    [| discriminate H].
  destruct (getitem v (u "weeklySchedule")); cbn [bind_result] in H; [| discriminate H].
  destruct (iterate _); cbn [bind_result] in H; [| discriminate H].
  assert (1 <= length r) as K; [| destruct r; [cbn in K; lia | discriminate]].
  eapply grow_for_each; [exact grow_text_day | | exact H].
  apply grow_app.
  eapply grow_for_each; [exact grow_text_subject | | exact E].
  rewrite length_app. cbn. lia.
Qed.

(** The download text of a call is never the empty string. *)
Lemma download_nonempty (self : Generator) (student_name : option str) (grade_level : Z)
  (selected_subjects : option (list str)) (learning_style : str)
  (weeks_per_year days_per_week : Z) (goals : option str) (w : World) (text : str) :
  snd (fst (generate_curriculum self student_name grade_level selected_subjects
              learning_style weeks_per_year days_per_week goals w)) = Some text ->
  text <> [].
Proof.
  destruct selected_subjects as [[| s l] |]; try discriminate.
  destruct (api_key self) as [| k key] eqn:K.
  - unfold generate_curriculum. rewrite K. discriminate.
  - destruct (@call_stages self student_name grade_level (Some (s :: l)) learning_style
                weeks_per_year days_per_week goals w)
      as [(e & -> & _) | (response & doc & curriculum & _ & _ & _ & ->)];
      [eauto | rewrite K; discriminate | |].
    + cbn [fst]. destruct (handler_fails e) as (-> & _). discriminate.
    + unfold render.
      destruct (display_on _ _ _ _);
        [| cbn [fst]; destruct (handler_fails e) as (-> & _); discriminate].
      destruct (text_on _ _ _ _) as [download |] eqn:Ht;
        [| cbn [fst]; destruct (handler_fails e) as (-> & _); discriminate].
      cbn [fst snd]. intros E. injection E as <-.
      exact (text_on_nonempty _ _ _ _ Ht).
Qed.

(** X3. The handler of the button writes a file exactly when the call gave a
    download text: without one it returns the message with no file and
    writes nothing; with one, which is never empty, it writes that text once
    under the name of the student, or student when there is none, followed
    by -curriculum.txt, and returns the message with that name; what the
    writing raises is not caught. *)
Theorem generate_and_save_writes_the_download (generator : Generator)
  (student_name : option str) (grade_level : Z)
  (math reading science social_studies art music pe language : bool)
  (learning_style : str) (weeks days : Z) (goals : option str) (w : World)
  (files : Files) :
  let call := generate_curriculum_gradio generator student_name grade_level math reading
                science social_studies art music pe language learning_style weeks days
                goals w in
  let saved := generate_and_save generator student_name grade_level math reading
                 science social_studies art music pe language learning_style weeks days
                 goals w files in
  let filename := or_else student_name (u "student") ++ u "-curriculum.txt" in
  match snd (fst call) with
  | None => saved = (Ok (fst (fst call), None), (snd call, files))
  | Some text =>
      text <> []
      /\ match write_error files filename text with
         | None =>
             saved = (Ok (fst (fst call), Some filename),
                      (snd call,
                       mkFiles (write_error files) (writes files ++ [(filename, text)])))
         | Some e => saved = (Raise e, (snd call, files))
         end
  end.
Proof.
  intros call saved filename. subst saved. unfold generate_and_save. fold call.
  assert (forall text, snd (fst call) = Some text -> text <> []) as Hne.
  { intros text. apply download_nonempty. }
  destruct call as [[display text] w']. cbn [fst snd] in *.
  destruct text as [text |]; [| reflexivity].
  specialize (Hne text eq_refl). split; [exact Hne |].
  destruct text as [| c text]; [contradiction |].
  cbn [truthy or_else]. fold filename. unfold write_text.
  destruct (write_error files filename (c :: text)); reflexivity.
Qed.

(** ** An answer with nothing in it *)

(** X9. When nothing is left of the text of the answer once it is cleaned,
    the text being empty or made of fences and whitespace only, the call
    returns the parse message with the diagnostic of the decoder on the
    empty document, and no download text; the clock is not read. *)
Theorem empty_answer_reported (self : Generator) (student_name : option str)
  (grade_level : Z) (selected_subjects : option (list str)) (learning_style : str)
  (weeks_per_year days_per_week : Z) (goals : option str) (w : World)
  (response : Response) (text : str) :
  let req := the_request self student_name grade_level selected_subjects learning_style
               weeks_per_year days_per_week goals in
  (exists s l, selected_subjects = Some (s :: l)) ->
  api_key self <> [] ->
  net w req = Ok response ->
  reply_text response = Ok (PStr text) ->
  clean_up text = [] ->
  generate_curriculum self student_name grade_level selected_subjects learning_style
    weeks_per_year days_per_week goals w
  = ((u "❌ Failed to parse curriculum data: Expecting value: line 1 column 1 (char 0)",
      None),
     mkWorld (net w) (sent w ++ [req]) (clock w) (ticks w)).
Proof.
  intros req H K Hnet Htext Hclean.
  rewrite (@generate_curriculum_on_text self student_name grade_level selected_subjects
             learning_style weeks_per_year days_per_week goals w response text H K Hnet
             Htext).
  fold req. rewrite Hclean.
  apply (f_equal2 pair); [vm_compute |]; reflexivity.
Qed.

(** ** Cleaning twice *)

Lemma lstrip_head (s : str) :
  lstrip s = [] \/ exists c r, lstrip s = c :: r /\ isspace c = false.
Proof.
  induction s as [| c s IH]; [now left |]. cbn [lstrip].
  destruct (isspace c) eqn:E; [exact IH | right; now exists c, s].
Qed.

Lemma lstrip_fixed (c : N) (r : str) : isspace c = false -> lstrip (c :: r) = c :: r.
Proof. intros H. cbn [lstrip]. now rewrite H. Qed.

Lemma rstrip_head (c : N) (r : str) :
  isspace c = false -> exists r', rstrip (c :: r) = c :: r'.
Proof.
  intros H. unfold rstrip. cbn [rev]. rewrite lstrip_app.
  destruct (all_space (rev r)).
  - exists []. cbn [lstrip]. now rewrite H.
  - rewrite rev_app_distr. cbn [rev app]. eauto.
Qed.

Lemma lstrip_lstrip (s : str) : lstrip (lstrip s) = lstrip s.
Proof.
  destruct (lstrip_head s) as [-> | (c & r & -> & H)]; [reflexivity |].
  now apply lstrip_fixed.
Qed.

Lemma rstrip_rstrip (s : str) : rstrip (rstrip s) = rstrip s.
Proof. unfold rstrip. now rewrite rev_involutive, lstrip_lstrip. Qed.

Lemma strip_strip (s : str) : strip (strip s) = strip s.
Proof.
  unfold strip. destruct (lstrip_head s) as [-> | (c & r & -> & H)]; [reflexivity |].
  destruct (@rstrip_head c r H) as (r' & E).
  rewrite E, (@lstrip_fixed c r' H), <- E. apply rstrip_rstrip.
Qed.

(** X10. Cleaning is idempotent: a cleaned text holds no fence and no
    whitespace at its ends, so cleaning it again, or stripping it, returns
    it unchanged. *)
Theorem clean_up_idempotent (text : str) :
  clean_up (clean_up text) = clean_up text /\ strip (clean_up text) = clean_up text.
Proof.
  assert (strip (clean_up text) = clean_up text) as S
    by (unfold clean_up; apply strip_strip).
  split; [| exact S].
  rewrite clean_up_no_fence; [exact S |].
  unfold clean_up. apply contains_strip, no_fence_left.
Qed.

(** ** The renderers and the clock *)

Lemma fold_append_prefix {A : Type} (f : A -> str) (l : list A) : forall p o : str,
  fold_left (fun output x => output ++ f x) l (p ++ o)
  = p ++ fold_left (fun output x => output ++ f x) l o.
Proof.
  induction l as [| x l IH]; intros p o; [reflexivity |].
  cbn [fold_left]. rewrite <- app_assoc. apply IH.
Qed.

Lemma numbered_prefix (items : list pyval) (p o : str) :
  numbered items (p ++ o) = p ++ numbered items o.
Proof.
  unfold numbered.
  exact (fold_append_prefix
           (fun io : Z * pyval => str_int (fst io) ++ u ". " ++ py_str (snd io) ++ nl)
           (enumerate items 1) p o).
Qed.

Lemma bulleted_prefix (items : list pyval) (p o : str) :
  bulleted items (p ++ o) = p ++ bulleted items o.
Proof.
  unfold bulleted.
  exact (fold_append_prefix (fun item : pyval => u "- " ++ py_str item ++ nl) items p o).
Qed.

(** A loop whose body only appends to the output only appends to it. *)
Lemma for_each_prefix {A : Type} (body : str -> A -> result str) (l : list A) :
  (forall p o x, body (p ++ o) x = prepend p (body o x)) ->
  forall p o, for_each l body (p ++ o) = prepend p (for_each l body o).
Proof.
  intros Hb. induction l as [| x l IH]; intros p o; [reflexivity |].
  cbn [for_each]. rewrite Hb. destruct (body o x); cbn [prepend]; [apply IH | reflexivity].
Qed.

Lemma bind_prepend (p : str) (r : result str) (k : str -> result str) :
  (forall o, k (p ++ o) = prepend p (k o)) ->
  bind_result (prepend p r) k = prepend p (bind_result r k).
Proof. intros Hk. destruct r; cbn [prepend bind_result]; [apply Hk | reflexivity]. Qed.

(** Goes through the lookups of a body called on two outputs. *)
Ltac appends :=
  cbv zeta;
  repeat match goal with
         | |- bind_result ?c _ = prepend _ (bind_result ?c _) =>
             destruct c; cbn [bind_result prepend]; [| reflexivity]
         end.

Ltac to_the_right :=
  repeat (rewrite <- ?app_assoc; first [rewrite numbered_prefix | rewrite bulleted_prefix]);
  rewrite <- ?app_assoc.

Lemma display_subject_prefix (p o : str) (v : pyval) :
  display_subject (p ++ o) v = prepend p (display_subject o v).
Proof.
  unfold display_subject. appends. cbn [prepend]. f_equal. to_the_right. reflexivity.
Qed.

Lemma display_period_prefix (p o : str) (v : pyval) :
  display_period (p ++ o) v = prepend p (display_period o v).
Proof.
  unfold display_period. appends. cbn [prepend]. f_equal. now rewrite <- app_assoc.
Qed.

Lemma display_day_prefix (p o : str) (v : pyval) :
  display_day (p ++ o) v = prepend p (display_day o v).
Proof.
  unfold display_day. appends. rewrite <- app_assoc.
  match goal with
  | |- context [for_each ?l display_period _] =>
      rewrite (for_each_prefix display_period l display_period_prefix)
  end.
  apply bind_prepend. intros out. cbn [prepend]. now rewrite <- app_assoc.
Qed.

Lemma text_subject_prefix (p o : str) (v : pyval) :
  text_subject (p ++ o) v = prepend p (text_subject o v).
Proof.
  unfold text_subject. appends. cbn [prepend]. f_equal. to_the_right. reflexivity.
Qed.

Lemma text_period_prefix (p o : str) (v : pyval) :
  text_period (p ++ o) v = prepend p (text_period o v).
Proof.
  unfold text_period. appends. cbn [prepend]. f_equal. now rewrite <- app_assoc.
Qed.

Lemma text_day_prefix (p o : str) (v : pyval) :
  text_day (p ++ o) v = prepend p (text_day o v).
Proof.
  unfold text_day. appends. rewrite <- app_assoc.
  apply (for_each_prefix text_period); exact text_period_prefix.
Qed.

(** The display rendering is its head, the date, and a rest that does not
    depend on the date. *)
Lemma display_on_date (v : pyval) (student_name : option str) (grade_level : Z) :
  exists rest : result str, forall date,
    display_on date v student_name grade_level
    = prepend (display_head student_name grade_level ++ date) rest.
Proof.
  unfold display_on.
  destruct (getitem v (u "overview")) as [overview | e]; cbn [bind_result];
    [| exists (Raise e); reflexivity].
  cbv zeta.
  destruct (getitem v (u "subjects")) as [subjects | e]; cbn [bind_result];
    [| exists (Raise e); reflexivity].
  destruct (iterate subjects) as [l | e]; cbn [bind_result];
    [| exists (Raise e); reflexivity].
  eexists. intros date.
  match goal with
  | |- context [for_each l display_subject ?header] =>
      match header with
      | context [u "**Generated:** " ++ date ++ ?tail] =>
          replace header with ((display_head student_name grade_level ++ date) ++ tail)
            by (unfold display_head; rewrite <- ?app_assoc; reflexivity)
      end
  end.
  rewrite (for_each_prefix display_subject l display_subject_prefix).
  rewrite bind_prepend; [reflexivity |].
  intros o. appends. rewrite <- app_assoc.
  apply (for_each_prefix display_day); exact display_day_prefix.
Qed.

Lemma text_on_date (v : pyval) (student_name : option str) (grade_level : Z) :
  exists rest : result str, forall date,
    text_on date v student_name grade_level
    = prepend (text_head student_name grade_level ++ date) rest.
Proof.
  unfold text_on.
  destruct (getitem v (u "overview")) as [overview | e]; cbn [bind_result];
    [| exists (Raise e); reflexivity].
  cbv zeta.
  destruct (getitem v (u "subjects")) as [subjects | e]; cbn [bind_result];
    [| exists (Raise e); reflexivity].
  destruct (iterate subjects) as [l | e]; cbn [bind_result];
    [| exists (Raise e); reflexivity].
  eexists. intros date.
  match goal with
  | |- context [for_each l text_subject ?header] =>
      match header with
      | context [u "Generated: " ++ date ++ ?tail] =>
          replace header with ((text_head student_name grade_level ++ date) ++ tail)
            by (unfold text_head; rewrite <- ?app_assoc; reflexivity)
      end
  end.
  rewrite (for_each_prefix text_subject l text_subject_prefix).
  rewrite bind_prepend; [reflexivity |].
  intros o. appends. rewrite <- app_assoc.
  apply (for_each_prefix text_day); exact text_day_prefix.
Qed.

(** A rendering that succeeds is its head, the date and a rest, and at any
    other date it is the same with only the date changed. *)
Lemma only_the_date (render_on : str -> result str) (head : str) (rest : result str) :
  (forall date, render_on date = prepend (head ++ date) rest) ->
  forall date out, render_on date = Ok out ->
  exists tail,
    out = head ++ date ++ tail
    /\ forall date', render_on date' = Ok (head ++ date' ++ tail).
Proof.
  intros H date out E. rewrite H in E. destruct rest as [tail | e]; [| discriminate E].
  cbn [prepend] in E. injection E as <-. exists tail.
  split; [now rewrite <- app_assoc |].
  intros date'. rewrite H. cbn [prepend]. now rewrite <- app_assoc.
Qed.

Lemma renderers_alike_on (date1 date2 : str) (curriculum : pyval)
  (student_name : option str) (grade_level : Z) :
  same_outcome (display_on date1 curriculum student_name grade_level)
    (text_on date2 curriculum student_name grade_level).
Proof.
  unfold display_on, text_on. cbv zeta. alike.
  match goal with
  | |- same_outcome (bind_result (for_each ?l _ ?a) _) (bind_result (for_each ?l _ ?b) _) =>
      pose proof (for_each_alike display_subject text_subject l subjects_alike a b) as H;
      destruct (for_each l display_subject a), (for_each l text_subject b);
      cbn [same_outcome] in H; try contradiction; cbn [bind_result]; [| exact H]
  end.
  alike. apply for_each_alike. exact days_alike.
Qed.

(** C7, as amended.  Each renderer is a function of the document, the name,
    the grade and the date it reads from the clock at render time: two
    renderings of one renderer from the same inputs at the same date are
    identical, a renderer changes nothing of the world but the count of
    clock readings, and the date enters a rendering as the text of its
    Generated line and nowhere else.  The two renderers read one document:
    they return or fail together, on a document with the shape of a record
    they render that same record, and the display and the download text of a
    call are the renderings of the one document the call decoded, at two
    successive readings of the clock; so they never diverge in data other
    than that date, and not in the date when both readings give the same
    day. *)
Theorem renderers_depend_on_date_only (self : Generator) (student_name : option str)
  (grade_level : Z) (selected_subjects : option (list str)) (learning_style : str)
  (weeks_per_year days_per_week : Z) (goals : option str) (w : World)
  (curriculum : pyval) (w1 w2 : World) :
  let req := the_request self student_name grade_level selected_subjects learning_style
               weeks_per_year days_per_week goals in
  let call := generate_curriculum self student_name grade_level selected_subjects
                learning_style weeks_per_year days_per_week goals w in
  let display := fun w => fst (format_curriculum_display curriculum student_name
                                 grade_level w) in
  let download := fun w => fst (format_curriculum_text curriculum student_name
                                  grade_level w) in
  (today w1 = today w2 -> display w1 = display w2 /\ download w1 = download w2)
  /\ snd (format_curriculum_display curriculum student_name grade_level w1) = tick w1
  /\ snd (format_curriculum_text curriculum student_name grade_level w1) = tick w1
  /\ (forall out, display w1 = Ok out ->
        exists rest,
          out = display_head student_name grade_level ++ today w1 ++ rest
          /\ forall w', display w'
                        = Ok (display_head student_name grade_level ++ today w' ++ rest))
  /\ (forall out, download w1 = Ok out ->
        exists rest,
          out = text_head student_name grade_level ++ today w1 ++ rest
          /\ forall w', download w'
                        = Ok (text_head student_name grade_level ++ today w' ++ rest))
  /\ same_outcome (display w1) (download w2)
  /\ (forall r, is_record curriculum r ->
        display w1 = Ok (display_rendering (today w1) r student_name grade_level)
        /\ download w2 = Ok (text_rendering (today w2) r student_name grade_level))
  /\ (forall shown saved, fst call = (shown, Some saved) ->
        exists response text document,
          net w req = Ok response
          /\ reply_text response = Ok (PStr text)
          /\ json_loads (clean_up text) = Ok document
          /\ fst (format_curriculum_display document student_name grade_level
                    (posted w req)) = Ok shown
          /\ fst (format_curriculum_text document student_name grade_level
                    (tick (posted w req))) = Ok saved
          /\ (clock w (ticks w) = clock w (S (ticks w)) ->
              today (posted w req) = today (tick (posted w req)))).
Proof.
  intros req call display download. subst display download. cbv beta.
  split; [| split; [| split; [| split; [| split; [| split; [| split]]]]]].
  - intros H. rewrite !format_curriculum_display_eq, !format_curriculum_text_eq.
    cbn [fst]. now rewrite H.
  - reflexivity.
  - reflexivity.
  - intros out E. rewrite format_curriculum_display_eq in E. cbn [fst] in E.
    destruct (display_on_date curriculum student_name grade_level) as (rest & H).
    destruct (@only_the_date
                (fun date => display_on date curriculum student_name grade_level)
                (display_head student_name grade_level) rest H (today w1) out E)
      as (tail & -> & K).
    exists tail. split; [reflexivity |].
    intros w'. rewrite format_curriculum_display_eq. apply K.
  - intros out E. rewrite format_curriculum_text_eq in E. cbn [fst] in E.
    destruct (text_on_date curriculum student_name grade_level) as (rest & H).
    destruct (@only_the_date
                (fun date => text_on date curriculum student_name grade_level)
                (text_head student_name grade_level) rest H (today w1) out E)
      as (tail & -> & K).
    exists tail. split; [reflexivity |].
    intros w'. rewrite format_curriculum_text_eq. apply K.
  - rewrite format_curriculum_display_eq, format_curriculum_text_eq. cbn [fst].
    apply renderers_alike_on.
  - intros r Hr. rewrite format_curriculum_display_eq, format_curriculum_text_eq.
    cbn [fst]. split; [now apply display_on_record | now apply text_on_record].
  - intros shown saved E. subst call.
    destruct selected_subjects as [[| s l] |]; try discriminate E.
    destruct (api_key self) as [| k key] eqn:K.
    { unfold generate_curriculum in E. rewrite K in E. discriminate E. }
    destruct (@call_stages self student_name grade_level (Some (s :: l)) learning_style
                weeks_per_year days_per_week goals w)
      as [(e & E' & _) | (response & text & document & Hnet & Htext & Hload & E')];
      [eauto | rewrite K; discriminate | |]; rewrite E' in E; cbn [fst] in E.
    + destruct (handler_fails e) as (N & _).
      apply (f_equal snd) in E. cbn [snd] in E. congruence.
    + exists response, text, document.
      rewrite format_curriculum_display_eq, format_curriculum_text_eq. cbn [fst].
      unfold render in E.
      destruct (display_on _ document _ _) as [a |] eqn:Hd;
        [| destruct (handler_fails e) as (N & _);
           apply (f_equal snd) in E; cbn [fst snd] in E; congruence].
      destruct (text_on _ document _ _) as [b |] eqn:Ht;
        [| destruct (handler_fails e) as (N & _);
           apply (f_equal snd) in E; cbn [fst snd] in E; congruence].
      cbn [fst] in E. injection E as <- <-.
      repeat split; try assumption.
      intros Hc. unfold today, tick, posted. cbn [clock ticks]. now rewrite Hc.
Qed.

End Program.

(** * The properties on the sample inputs *)

Lemma no_subjects_no_request_witness :
  (@None (list str) = None \/ @None (list str) = Some [])
  /\ generate_curriculum repr_of_literal repr_in_quotes default_recursion_limit default_int_max_str_digits sample_generator (Some (u "Alex")) 3
       None (u "visual") 36 5 None (sample_world sample_json (fun _ => january_5))
     = ((u "❌ Please select at least one subject", None),
        sample_world sample_json (fun _ => january_5))
  /\ sent (snd (generate_curriculum repr_of_literal repr_in_quotes default_recursion_limit default_int_max_str_digits sample_generator
                  (Some (u "Alex")) 3 None (u "visual") 36 5 None
                  (sample_world sample_json (fun _ => january_5))))
     = sent (sample_world sample_json (fun _ => january_5)).
Proof.
  split; [now left |]. apply no_subjects_no_request. now left.
Defined.

Lemma no_api_key_no_request_witness :
  api_key keyless_generator = []
  /\ generate_curriculum repr_of_literal repr_in_quotes default_recursion_limit default_int_max_str_digits keyless_generator (Some (u "Alex")) 3
       (Some [u "Math"; u "Science"]) (u "visual") 36 5 None
       (sample_world sample_json (fun _ => january_5))
     = ((u "❌ API key not configured. Please add ANTHROPIC_API_KEY to Hugging Face Secrets.",
         None),
        sample_world sample_json (fun _ => january_5))
  /\ sent (snd (generate_curriculum repr_of_literal repr_in_quotes default_recursion_limit default_int_max_str_digits keyless_generator
                  (Some (u "Alex")) 3 (Some [u "Math"; u "Science"]) (u "visual") 36 5 None
                  (sample_world sample_json (fun _ => january_5))))
     = sent (sample_world sample_json (fun _ => january_5)).
Proof.
  split; [reflexivity |]. apply no_api_key_no_request; [| reflexivity].
  exists (u "Math"), [u "Science"]. reflexivity.
Defined.

Lemma subjects_checked_before_key_witness :
  api_key keyless_generator = []
  /\ fst (fst (generate_curriculum repr_of_literal repr_in_quotes default_recursion_limit default_int_max_str_digits keyless_generator
                 (Some (u "Alex")) 3 (Some []) (u "visual") 36 5 None
                 (sample_world sample_json (fun _ => january_5))))
     = u "❌ Please select at least one subject"
  /\ fst (fst (generate_curriculum repr_of_literal repr_in_quotes default_recursion_limit default_int_max_str_digits keyless_generator
                 (Some (u "Alex")) 3 (Some []) (u "visual") 36 5 None
                 (sample_world sample_json (fun _ => january_5))))
     <> u "❌ API key not configured. Please add ANTHROPIC_API_KEY to Hugging Face Secrets.".
Proof.
  split; [reflexivity |]. apply subjects_checked_before_key; [now right | reflexivity].
Defined.

Lemma renderers_keep_record_order_witness :
  is_record (encode sample_record) sample_record
  /\ format_curriculum_display repr_of_literal repr_in_quotes (encode sample_record)
       (Some (u "Alex")) 3 (sample_world sample_json (fun _ => january_5))
     = (Ok (display_rendering repr_of_literal (u "2024-01-05") sample_record
              (Some (u "Alex")) 3),
        tick (sample_world sample_json (fun _ => january_5)))
  /\ format_curriculum_text repr_of_literal repr_in_quotes (encode sample_record)
       (Some (u "Alex")) 3 (sample_world sample_json (fun _ => january_5))
     = (Ok (text_rendering repr_of_literal (u "2024-01-05") sample_record
              (Some (u "Alex")) 3),
        tick (sample_world sample_json (fun _ => january_5))).
Proof.
  split; [apply encode_is_record |].
  exact (renderers_keep_record_order repr_of_literal repr_in_quotes (Some (u "Alex")) 3
           (sample_world sample_json (fun _ => january_5))
           (encode_is_record sample_record)).
Defined.



(** An integer of 4301 digits: the call reports it with the general error
    message and the text of the [ValueError]. *)
Example long_integer_is_not_decoded :
  fst (generate_curriculum repr_of_literal repr_in_quotes default_recursion_limit
         default_int_max_str_digits sample_generator (Some (u "Alex")) 3
         (Some [u "Math"]) (u "visual") 36 5 None
         (sample_world (repeat 49%N 4301) (fun _ => january_5)))
  = (u "❌ Error: Exceeds the limit (4300 digits) for integer string conversion: value has 4301 digits; use sys.set_int_max_str_digits() to increase the limit",
     None).
Proof. vm_compute. reflexivity. Qed.


Lemma renderers_depend_on_date_only_witness :
  today (sample_world sample_json (fun _ => january_5))
  = today (posted (sample_world (u "{}") over_midnight)
             (the_request sample_generator None 3
                (Some [u "Art"]) (u "auditory") 30 4 None))
  /\ fst (format_curriculum_display repr_of_literal repr_in_quotes (encode sample_record)
            (Some (u "Alex")) 3 (sample_world sample_json (fun _ => january_5)))
     = fst (format_curriculum_display repr_of_literal repr_in_quotes (encode sample_record)
              (Some (u "Alex")) 3
              (posted (sample_world (u "{}") over_midnight)
                 (the_request sample_generator None 3
                    (Some [u "Art"]) (u "auditory") 30 4 None)))
  /\ fst (format_curriculum_text repr_of_literal repr_in_quotes (encode sample_record)
            (Some (u "Alex")) 3 (sample_world sample_json (fun _ => january_5)))
     = fst (format_curriculum_text repr_of_literal repr_in_quotes (encode sample_record)
              (Some (u "Alex")) 3
              (posted (sample_world (u "{}") over_midnight)
                 (the_request sample_generator None 3
                    (Some [u "Art"]) (u "auditory") 30 4 None)))
  /\ fst (format_curriculum_display repr_of_literal repr_in_quotes (encode sample_record)
            (Some (u "Alex")) 3 (sample_world sample_json (fun _ => january_5)))
     = Ok (display_rendering repr_of_literal
             (today (sample_world sample_json (fun _ => january_5)))
             sample_record (Some (u "Alex")) 3)
  /\ fst (format_curriculum_text repr_of_literal repr_in_quotes (encode sample_record)
            (Some (u "Alex")) 3
            (posted (sample_world (u "{}") over_midnight)
               (the_request sample_generator None 3
                  (Some [u "Art"]) (u "auditory") 30 4 None)))
     = Ok (text_rendering repr_of_literal
             (today (posted (sample_world (u "{}") over_midnight)
                       (the_request sample_generator None 3
                          (Some [u "Art"]) (u "auditory") 30 4 None)))
             sample_record (Some (u "Alex")) 3).
Proof.
  assert (today (sample_world sample_json (fun _ => january_5))
          = today (posted (sample_world (u "{}") over_midnight)
                     (the_request sample_generator None 3
                        (Some [u "Art"]) (u "auditory") 30 4 None))) as H
    by (vm_compute; reflexivity).
  split; [exact H |].
  destruct (@renderers_depend_on_date_only repr_of_literal repr_in_quotes
              default_recursion_limit default_int_max_str_digits sample_generator
              (Some (u "Alex")) 3 (Some [u "Math"]) (u "visual") 36 5 None
              (sample_world sample_json (fun _ => january_5))
              (encode sample_record)
              (sample_world sample_json (fun _ => january_5))
              (posted (sample_world (u "{}") over_midnight)
                 (the_request sample_generator None 3
                    (Some [u "Art"]) (u "auditory") 30 4 None)))
    as (A & _ & _ & _ & _ & _ & B & _).
  destruct (A H) as (A1 & A2). destruct (B sample_record (encode_is_record sample_record))
    as (B1 & B2).
  repeat split; assumption.
Defined.

Lemma prompt_construction_witness :
  [u "Math"; u "Science"] <> []
  /\ api_key sample_generator <> []
  /\ sent (snd (generate_curriculum repr_of_literal repr_in_quotes default_recursion_limit default_int_max_str_digits sample_generator
                  (Some (u "Alex")) 3 (Some [u "Math"; u "Science"]) (u "visual") 36 5
                  (Some (u "Fractions")) (sample_world sample_json (fun _ => january_5))))
     = sent (sample_world sample_json (fun _ => january_5))
       ++ [mkRequest (api_url sample_generator) (headers sample_generator)
             (data (prompt (Some (u "Alex")) 3 (join (u ", ") [u "Math"; u "Science"])
                      (u "visual") 36 5 (Some (u "Fractions"))))]
  /\ join (u ", ") [u "Math"; u "Science"] = u "Math, Science"
  /\ goals_line (Some (u "Fractions")) = u "Learning goals: Fractions".
Proof.
  assert ([u "Math"; u "Science"] <> []) as H1 by discriminate.
  assert (api_key sample_generator <> []) as H2 by (vm_compute; discriminate).
  split; [exact H1 |]. split; [exact H2 |].
  destruct (@prompt_construction repr_of_literal repr_in_quotes default_recursion_limit default_int_max_str_digits sample_generator
              (Some (u "Alex")) 3 [u "Math"; u "Science"] (u "visual") 36 5
              (Some (u "Fractions")) (sample_world sample_json (fun _ => january_5))
              H1 H2)
    as (A & _ & _ & B & _).
  split; [exact A |]. split; [vm_compute; reflexivity |].
  refine (eq_trans (B _ eq_refl _) _); [discriminate | vm_compute; reflexivity].
Defined.

Lemma message_always_text_only_on_success_witness :
  generate_curriculum repr_of_literal repr_in_quotes default_recursion_limit
    default_int_max_str_digits sample_generator (Some (u "Alex")) 3
    (Some [u "Math"; u "Science"]) (u "visual") 36 5 None
    (sample_world sample_json (fun _ => january_5))
  = ((display_rendering repr_of_literal (u "2024-01-05") sample_record (Some (u "Alex")) 3,
      Some (text_rendering repr_of_literal (u "2024-01-05") sample_record
              (Some (u "Alex")) 3)),
     tick (tick (posted (sample_world sample_json (fun _ => january_5))
                   (the_request sample_generator (Some (u "Alex")) 3
                      (Some [u "Math"; u "Science"]) (u "visual") 36 5 None)))).
Proof.
  refine (proj2 (proj2 (@message_always_text_only_on_success repr_of_literal
                          repr_in_quotes default_recursion_limit
                          default_int_max_str_digits sample_generator (Some (u "Alex")) 3
                          (Some [u "Math"; u "Science"]) (u "visual") 36 5 None
                          (sample_world sample_json (fun _ => january_5))))
            (reply sample_json) sample_json (encode sample_record) _ _ _ _ _ _ _ _ _).
  - exists (u "Math"), [u "Science"]. reflexivity.
  - vm_compute. discriminate.
  - reflexivity.
  - vm_compute. reflexivity.
  - vm_compute. reflexivity.
  - vm_compute. reflexivity.
  - vm_compute. reflexivity.
Defined.

(** The renderings of one document, for one name and one grade, differ from
    one day to the next; and in a call that passes midnight between the two
    renderers, the display and the download text carry different dates. *)
Lemma renderings_differ_with_the_date :
  fst (format_curriculum_display repr_of_literal repr_in_quotes (encode sample_record)
         (Some (u "Alex")) 3 (sample_world sample_json (fun _ => january_5)))
  <> fst (format_curriculum_display repr_of_literal repr_in_quotes (encode sample_record)
            (Some (u "Alex")) 3 (sample_world sample_json (fun _ => january_6)))
  /\ fst (format_curriculum_text repr_of_literal repr_in_quotes (encode sample_record)
            (Some (u "Alex")) 3 (sample_world sample_json (fun _ => january_5)))
     <> fst (format_curriculum_text repr_of_literal repr_in_quotes (encode sample_record)
               (Some (u "Alex")) 3 (sample_world sample_json (fun _ => january_6)))
  /\ exists display download,
       fst (generate_curriculum repr_of_literal repr_in_quotes default_recursion_limit default_int_max_str_digits sample_generator
              (Some (u "Alex")) 3 (Some [u "Math"]) (u "visual") 36 5 None
              (sample_world sample_json over_midnight))
       = (display, Some download)
       /\ contains (u "**Generated:** 2024-01-05") display = true
       /\ contains (u "Generated: 2024-01-06") download = true.
Proof.
  split; [| split].
  - intros E. apply (f_equal (fun r => match r with
                               | Ok s => contains (u "2024-01-05") s
                               | Raise _ => false
                               end)) in E.
    vm_compute in E. discriminate E.
  - intros E. apply (f_equal (fun r => match r with
                               | Ok s => contains (u "2024-01-05") s
                               | Raise _ => false
                               end)) in E.
    vm_compute in E. discriminate E.
  - eexists. eexists. split; [vm_compute; reflexivity |]. split; vm_compute; reflexivity.
Qed.

(** The whole call on the sample response, fenced as the model fences it. *)
Example sample_call :
  fst (generate_curriculum repr_of_literal repr_in_quotes default_recursion_limit default_int_max_str_digits sample_generator
         (Some (u "Alex")) 3 (Some [u "Math"; u "Science"]) (u "visual") 36 5 None
         (sample_world (u "```json" ++ nl ++ sample_json ++ nl ++ u "```")
            (fun _ => january_5)))
  = (display_rendering repr_of_literal (u "2024-01-05") sample_record (Some (u "Alex")) 3,
     Some (text_rendering repr_of_literal (u "2024-01-05") sample_record
             (Some (u "Alex")) 3)).
Proof. vm_compute. reflexivity. Qed.

(** A response whose overview holds a fence: the overview is rendered
    without it. *)
Example fence_inside_the_overview :
  exists display download,
    fst (generate_curriculum repr_of_literal repr_in_quotes default_recursion_limit default_int_max_str_digits sample_generator
           (Some (u "Alex")) 3 (Some [u "Math"]) (u "visual") 36 5 None
           (sample_world
              (replace (u "{'overview': 'Write ```code``` daily', 'subjects': [], 'weeklySchedule': []}")
                 (u "'") dq)
              (fun _ => january_5)))
    = (display, Some download)
    /\ contains (u "Write code daily") download = true
    /\ contains (u "```") download = false.
Proof.
  eexists. eexists. split; [vm_compute; reflexivity |]. split; vm_compute; reflexivity.
Qed.

(** ** The further properties on the sample inputs *)

Lemma gradio_call_names_one_subject_witness :
  api_key sample_generator <> []
  /\ sent (snd (generate_curriculum_gradio repr_of_literal repr_in_quotes default_recursion_limit default_int_max_str_digits sample_generator
                  (Some (u "Alex")) 3 true false true false false false false false
                  (u "visual") 36 5 None (sample_world sample_json (fun _ => january_5))))
     = sent (sample_world sample_json (fun _ => january_5))
       ++ [mkRequest (api_url sample_generator) (headers sample_generator)
             (data (prompt (Some (u "Alex")) 3 (u "Science") (u "visual") 36 5 None))].
Proof.
  assert (api_key sample_generator <> []) as K by (vm_compute; discriminate).
  split; [exact K |].
  exact (@gradio_call_names_one_subject repr_of_literal repr_in_quotes default_recursion_limit default_int_max_str_digits sample_generator
           (Some (u "Alex")) 3 true false true false false false false false
           (u "visual") 36 5 None (sample_world sample_json (fun _ => january_5)) K).
Defined.

Lemma key_comes_from_environment_witness :
  (forall value, ~ In (u "ANTHROPIC_API_KEY", value) [ (u "HOME", u "/home/user") ])
  /\ generate_curriculum repr_of_literal repr_in_quotes default_recursion_limit default_int_max_str_digits
       (init [ (u "HOME", u "/home/user") ]) (Some (u "Alex")) 3 (Some [u "Math"])
       (u "visual") 36 5 None (sample_world sample_json (fun _ => january_5))
     = ((u "❌ API key not configured. Please add ANTHROPIC_API_KEY to Hugging Face Secrets.",
         None), sample_world sample_json (fun _ => january_5))
  /\ api_key (init ([ (u "HOME", u "/home/user") ]
                    ++ (u "ANTHROPIC_API_KEY", u "sk-ant-sample") :: []))
     = u "sk-ant-sample".
Proof.
  assert (forall value, ~ In (u "ANTHROPIC_API_KEY", value) [ (u "HOME", u "/home/user") ])
    as H.
  { intros value [E | []]. vm_compute in E. discriminate E. }
  split; [exact H |]. split.
  - exact (proj1 (proj2 (@key_comes_from_environment repr_of_literal repr_in_quotes default_recursion_limit default_int_max_str_digits
                           [ (u "HOME", u "/home/user") ] (Some (u "Alex")) 3 (u "Math") []
                           (u "visual") 36 5 None
                           (sample_world sample_json (fun _ => january_5)))) H).
  - exact (proj2 (proj2 (@key_comes_from_environment repr_of_literal repr_in_quotes default_recursion_limit default_int_max_str_digits
                           ([ (u "HOME", u "/home/user") ]
                            ++ (u "ANTHROPIC_API_KEY", u "sk-ant-sample") :: [])
                           (Some (u "Alex")) 3 (u "Math") [] (u "visual") 36 5 None
                           (sample_world sample_json (fun _ => january_5))))
             [ (u "HOME", u "/home/user") ] (u "sk-ant-sample") [] eq_refl H).
Defined.

Lemma get_grade_suffix_english_witness :
  (0 <= 12 <= 20)%Z
  /\ get_grade_suffix 12 = english_suffix 12
  /\ get_grade_suffix 21 <> english_suffix 21.
Proof. split; [lia |]. apply get_grade_suffix_english. lia. Defined.

Lemma transport_failure_reported_witness :
  generate_curriculum repr_of_literal repr_in_quotes default_recursion_limit default_int_max_str_digits sample_generator (Some (u "Alex")) 3
    (Some [u "Math"; u "Science"]) (u "visual") 36 5 None
    (failing_world (u "Connection refused"))
  = ((u "❌ API request failed: " ++ u "Connection refused", None),
     mkWorld (net (failing_world (u "Connection refused")))
       (sent (failing_world (u "Connection refused"))
        ++ [the_request sample_generator (Some (u "Alex")) 3
              (Some [u "Math"; u "Science"]) (u "visual") 36 5 None])
       (clock (failing_world (u "Connection refused")))
       (ticks (failing_world (u "Connection refused")))).
Proof.
  apply (@transport_failure_reported repr_of_literal repr_in_quotes default_recursion_limit default_int_max_str_digits sample_generator
           (Some (u "Alex")) 3 (Some [u "Math"; u "Science"]) (u "visual") 36 5 None
           (failing_world (u "Connection refused")) (u "Connection refused")).
  - exists (u "Math"), [u "Science"]. reflexivity.
  - vm_compute. discriminate.
  - left. reflexivity.
Defined.

Lemma malformed_answer_reported_witness :
  generate_curriculum repr_of_literal repr_in_quotes default_recursion_limit default_int_max_str_digits sample_generator (Some (u "Alex")) 3
    (Some [u "Math"; u "Science"]) (u "visual") 36 5 None
    (answering_world (mkResponse None (Ok (PDict []))))
  = ((u "❌ Error: 'content'", None),
     posted (answering_world (mkResponse None (Ok (PDict []))))
       (the_request sample_generator (Some (u "Alex")) 3
          (Some [u "Math"; u "Science"]) (u "visual") 36 5 None))
  /\ generate_curriculum repr_of_literal repr_in_quotes default_recursion_limit default_int_max_str_digits sample_generator (Some (u "Alex")) 3
       (Some [u "Math"; u "Science"]) (u "visual") 36 5 None
       (answering_world (mkResponse None (Ok (PDict [ (u "content", PList []) ]))))
     = ((u "❌ Error: list index out of range", None),
        posted (answering_world (mkResponse None (Ok (PDict [ (u "content", PList []) ]))))
          (the_request sample_generator (Some (u "Alex")) 3
             (Some [u "Math"; u "Science"]) (u "visual") 36 5 None))
  /\ generate_curriculum repr_of_literal repr_in_quotes default_recursion_limit default_int_max_str_digits sample_generator (Some (u "Alex")) 3
       (Some [u "Math"; u "Science"]) (u "visual") 36 5 None
       (answering_world
          (mkResponse None
             (Ok (PDict [ (u "content", PList [ PDict [ (u "text", PNone) ] ]) ]))))
     = ((u "❌ Error: 'NoneType' object has no attribute 'replace'", None),
        posted (answering_world
                  (mkResponse None
                     (Ok (PDict [ (u "content", PList [ PDict [ (u "text", PNone) ] ]) ]))))
          (the_request sample_generator (Some (u "Alex")) 3
             (Some [u "Math"; u "Science"]) (u "visual") 36 5 None)).
Proof.
  assert (exists s l, Some [u "Math"; u "Science"] = Some (s :: l)) as H
    by (exists (u "Math"), [u "Science"]; reflexivity).
  assert (api_key sample_generator <> []) as K by (vm_compute; discriminate).
  split; [| split].
  - refine (proj1 (@malformed_answer_reported repr_of_literal repr_in_quotes default_recursion_limit default_int_max_str_digits
                     sample_generator (Some (u "Alex")) 3 (Some [u "Math"; u "Science"])
                     (u "visual") 36 5 None
                     (answering_world (mkResponse None (Ok (PDict []))))
                     (mkResponse None (Ok (PDict []))) H K eq_refl eq_refl) [] eq_refl _).
    reflexivity.
  - refine (proj1 (proj2 (@malformed_answer_reported repr_of_literal repr_in_quotes default_recursion_limit default_int_max_str_digits
                     sample_generator (Some (u "Alex")) 3 (Some [u "Math"; u "Science"])
                     (u "visual") 36 5 None
                     (answering_world
                        (mkResponse None (Ok (PDict [ (u "content", PList []) ]))))
                     (mkResponse None (Ok (PDict [ (u "content", PList []) ])))
                     H K eq_refl eq_refl)) [ (u "content", PList []) ] eq_refl _).
    vm_compute. reflexivity.
  - refine (proj2 (proj2 (@malformed_answer_reported repr_of_literal repr_in_quotes default_recursion_limit default_int_max_str_digits
                     sample_generator (Some (u "Alex")) 3 (Some [u "Math"; u "Science"])
                     (u "visual") 36 5 None
                     (answering_world
                        (mkResponse None
                           (Ok (PDict [ (u "content",
                                         PList [ PDict [ (u "text", PNone) ] ]) ]))))
                     (mkResponse None
                        (Ok (PDict [ (u "content", PList [ PDict [ (u "text", PNone) ] ]) ])))
                     H K eq_refl eq_refl))
              [ (u "content", PList [ PDict [ (u "text", PNone) ] ]) ]
              [ (u "text", PNone) ] eq_refl _ _); vm_compute; reflexivity.
Defined.

Lemma missing_overview_reported_witness :
  generate_curriculum repr_of_literal repr_in_quotes default_recursion_limit default_int_max_str_digits sample_generator (Some (u "Alex")) 3
    (Some [u "Math"; u "Science"]) (u "visual") 36 5 None
    (sample_world (u "{}") (fun _ => january_5))
  = ((u "❌ Error: 'overview'", None),
     mkWorld (net (sample_world (u "{}") (fun _ => january_5)))
       (sent (sample_world (u "{}") (fun _ => january_5))
        ++ [the_request sample_generator (Some (u "Alex")) 3
              (Some [u "Math"; u "Science"]) (u "visual") 36 5 None])
       (clock (sample_world (u "{}") (fun _ => january_5)))
       (S (ticks (sample_world (u "{}") (fun _ => january_5))))).
Proof.
  apply (@missing_overview_reported repr_of_literal repr_in_quotes default_recursion_limit default_int_max_str_digits sample_generator
           (Some (u "Alex")) 3 (Some [u "Math"; u "Science"]) (u "visual") 36 5 None
           (sample_world (u "{}") (fun _ => january_5)) (reply (u "{}")) (u "{}") []).
  - exists (u "Math"), [u "Science"]. reflexivity.
  - vm_compute. discriminate.
  - reflexivity.
  - vm_compute. reflexivity.
  - vm_compute. reflexivity.
  - reflexivity.
Defined.

Lemma empty_answer_reported_witness :
  clean_up (u "```json" ++ nl ++ u "```") = []
  /\ generate_curriculum repr_of_literal repr_in_quotes default_recursion_limit default_int_max_str_digits sample_generator (Some (u "Alex")) 3
       (Some [u "Math"; u "Science"]) (u "visual") 36 5 None
       (sample_world (u "```json" ++ nl ++ u "```") (fun _ => january_5))
     = ((u "❌ Failed to parse curriculum data: Expecting value: line 1 column 1 (char 0)",
         None),
        mkWorld (net (sample_world (u "```json" ++ nl ++ u "```") (fun _ => january_5)))
          (sent (sample_world (u "```json" ++ nl ++ u "```") (fun _ => january_5))
           ++ [the_request sample_generator (Some (u "Alex")) 3
                 (Some [u "Math"; u "Science"]) (u "visual") 36 5 None])
          (clock (sample_world (u "```json" ++ nl ++ u "```") (fun _ => january_5)))
          (ticks (sample_world (u "```json" ++ nl ++ u "```") (fun _ => january_5)))).
Proof.
  assert (clean_up (u "```json" ++ nl ++ u "```") = []) as C by (vm_compute; reflexivity).
  split; [exact C |].
  apply (@empty_answer_reported repr_of_literal repr_in_quotes default_recursion_limit default_int_max_str_digits sample_generator
           (Some (u "Alex")) 3 (Some [u "Math"; u "Science"]) (u "visual") 36 5 None
           (sample_world (u "```json" ++ nl ++ u "```") (fun _ => january_5))
           (reply (u "```json" ++ nl ++ u "```")) (u "```json" ++ nl ++ u "```")).
  - exists (u "Math"), [u "Science"]. reflexivity.
  - vm_compute. discriminate.
  - reflexivity.
  - vm_compute. reflexivity.
  - exact C.
Defined.
